(** * A verification development for the Betterstack uptime client

    The Go package [client] (client.go and its models) is embedded
    shallowly: strings are byte strings, [int] is a 64-bit integer carried
    in [Z], a Go result pair [(v, err)] is a pair whose second component is
    an [option error], and the HTTP exchange is a state transformer over a
    world that records every request handed to the transport.

    The Go standard library and the third-party helpers the client calls
    (strings, strconv, net/url, go-funk) are modelled in the modules that
    open the file; the JSON decoder and the HTTP transport are the fields of
    the class [Env]. *)

From Stdlib Require Import ZArith NArith List String Ascii Bool Lia QArith_base.
From Stdlib Require Import DecimalString DecimalZ.
Import ListNotations.

Local Open Scope string_scope.
Local Open Scope Z_scope.

Set Implicit Arguments.
Set Warnings "-register-all".

(** ** Go values shared by all packages *)

(** A value of the Go type [any] as the JSON decoder produces it. *)
Inductive any : Type :=
| any_nil
| any_bool (b : bool)
| any_float64 (f : Q)
| any_string (s : string)
| any_slice (l : list any)
| any_map (m : list (string * any)).

(** Go error values, kept as the constructor calls that build them:
    [errors.New], [fmt.Errorf] with its format string and operands,
    [*url.Error] and [*strconv.NumError]. *)
Inductive error : Type :=
| errors_New (text : string)
| fmt_Errorf (format : string) (args : list fmt_arg)
| url_Error (Op URL : string) (Err : error)
| strconv_NumError (Func Num : string) (Err : error)
with fmt_arg : Type :=
| arg_error (e : option error)
| arg_string (s : string)
| arg_any (v : any).

(** The outcome of a library call whose value is unused on failure. *)
Inductive result (A : Type) : Type :=
| Ok (a : A)
| Err (e : error).
Arguments Ok {A} a.
Arguments Err {A} e.

(** Bytes and their classes. *)
Definition code (c : ascii) : N := N_of_ascii c.

Definition between (lo hi c : ascii) : bool :=
  ((code lo <=? code c) && (code c <=? code hi))%N.

Definition is_lower (c : ascii) : bool := between "a" "z" c.
Definition is_upper (c : ascii) : bool := between "A" "Z" c.
Definition is_digit (c : ascii) : bool := between "0" "9" c.
Definition is_alnum (c : ascii) : bool := is_lower c || is_upper c || is_digit c.

(** [c] is one of the bytes of [set]. *)
Fixpoint one_of (set : string) (c : ascii) : bool :=
  match set with
  | EmptyString => false
  | String a set' => Ascii.eqb c a || one_of set' c
  end.

(** ** Package strings *)
Module strings.

Fixpoint HasPrefix (s prefix : string) {struct prefix} : bool :=
  match prefix, s with
  | EmptyString, _ => true
  | String _ _, EmptyString => false
  | String a p', String b s' => Ascii.eqb a b && HasPrefix s' p'
  end.

Fixpoint drop (n : nat) (s : string) : string :=
  match n, s with
  | O, _ => s
  | S _, EmptyString => EmptyString
  | S n', String _ s' => drop n' s'
  end.

Fixpoint take (n : nat) (s : string) : string :=
  match n, s with
  | O, _ => EmptyString
  | S _, EmptyString => EmptyString
  | S n', String c s' => String c (take n' s')
  end.

(** [strings.Cut]: the text before and after the first [sep], and whether
    [sep] occurs; [(s, "", false)] when it does not. *)
Fixpoint Cut (s sep : string) : string * string * bool :=
  if HasPrefix s sep then (EmptyString, drop (String.length sep) s, true)
  else match s with
       | EmptyString => (EmptyString, EmptyString, false)
       | String c s' =>
           let '(before, after, found) := Cut s' sep in
           (String c before, after, found)
       end.

(** [strings.Index], with [None] for Go's -1. *)
Fixpoint Index (s substr : string) : option nat :=
  if HasPrefix s substr then Some O
  else match s with
       | EmptyString => None
       | String _ s' => option_map S (Index s' substr)
       end.

(** [strings.LastIndex] for a one-byte separator. *)
Fixpoint LastIndexByte (s : string) (c : ascii) : option nat :=
  match s with
  | EmptyString => None
  | String a s' =>
      match LastIndexByte s' c with
      | Some i => Some (S i)
      | None => if Ascii.eqb a c then Some O else None
      end
  end.

Definition Contains (s substr : string) : bool :=
  match Index s substr with Some _ => true | None => false end.

(** [strings.Count] for a one-byte separator. *)
Fixpoint CountByte (s : string) (c : ascii) : nat :=
  match s with
  | EmptyString => O
  | String a s' => ((if Ascii.eqb a c then 1 else 0) + CountByte s' c)%nat
  end.

(** [strings.HasSuffix] for a one-byte suffix. *)
Fixpoint HasSuffixByte (s : string) (c : ascii) : bool :=
  match s with
  | EmptyString => false
  | String a EmptyString => Ascii.eqb a c
  | String _ s' => HasSuffixByte s' c
  end.

Definition lower (c : ascii) : ascii :=
  if is_upper c then ascii_of_N (code c + 32) else c.

Fixpoint ToLower (s : string) : string :=
  match s with
  | EmptyString => EmptyString
  | String c s' => String (lower c) (ToLower s')
  end.

Fixpoint all (p : ascii -> bool) (s : string) : bool :=
  match s with
  | EmptyString => true
  | String c s' => p c && all p s'
  end.

End strings.

(** ** Package fmt: the verb [%d] *)
Module fmt.

(** [fmt.Sprintf("%d", n)]: the decimal numeral of [n], with a leading
    minus sign for a negative number. *)
Definition Sprintf_d (n : Z) : string := NilZero.string_of_int (Z.to_int n).

End fmt.

(** ** Package strconv *)
Module strconv.

Definition ErrSyntax : error := errors_New "invalid syntax".
Definition ErrRange : error := errors_New "value out of range".

(** The test [err == ErrRange]. *)
Definition is_ErrRange (e : error) : bool :=
  match e with
  | errors_New text => String.eqb text "value out of range"
  | _ => false
  end.

Definition maxUint64 : Z := 2 ^ 64 - 1.

(** The digit loop of [strconv.ParseUint(s, 10, 64)], [n] being the value
    read so far. *)
Fixpoint ParseUint_loop (n : Z) (s : string) : Z * option error :=
  match s with
  | EmptyString => (n, None)
  | String c s' =>
      if is_digit c then
        let d := Z.of_N (code c) - 48 in
        if maxUint64 / 10 + 1 <=? n then (maxUint64, Some ErrRange)
        else
          let n1 := n * 10 + d in
          if maxUint64 <? n1 then (maxUint64, Some ErrRange)
          else ParseUint_loop n1 s'
      else (0, Some ErrSyntax)
  end.

Definition ParseUint (s : string) : Z * option error :=
  match s with
  | EmptyString => (0, Some ErrSyntax)
  | _ => ParseUint_loop 0 s
  end.

(** [strconv.Atoi] on a platform whose [int] has 64 bits.  The fast path
    the library takes for short inputs computes what [ParseInt(s, 10, 0)]
    computes, so one definition covers both. *)
Definition Atoi (s0 : string) : Z * option error :=
  let numError e := Some (strconv_NumError "Atoi" s0 e) in
  match s0 with
  | EmptyString => (0, numError ErrSyntax)
  | String c s' =>
      let neg := Ascii.eqb c "-" in
      let s := if Ascii.eqb c "+" || neg then s' else s0 in
      let cutoff := 2 ^ 63 in
      match ParseUint s with
      | (un, Some e) =>
          if is_ErrRange e
          then if neg then (- cutoff, numError ErrRange)
               else (cutoff - 1, numError ErrRange)
          else (0, numError e)
      | (un, None) =>
          if negb neg && (cutoff <=? un) then (cutoff - 1, numError ErrRange)
          else if neg && (cutoff <? un) then (- cutoff, numError ErrRange)
          else (if neg then - un else un, None)
      end
  end.

End strconv.

(** ** Package net/url

    [Parse] follows the library's parser for what the client observes of
    it: whether the text is accepted, and the raw query.  The user
    information is checked and dropped, and the raw forms of path and
    fragment are not kept. *)
Module url.

Inductive encoding : Type :=
| encodePath
| encodePathSegment
| encodeHost
| encodeZone
| encodeUserPassword
| encodeQueryComponent
| encodeFragment.

Definition is_host_mode (mode : encoding) : bool :=
  match mode with encodeHost | encodeZone => true | _ => false end.

Definition ishex (c : ascii) : bool :=
  is_digit c || between "a" "f" c || between "A" "F" c.

Definition unhex (c : ascii) : N :=
  if is_digit c then code c - 48
  else if between "a" "f" c then code c - 97 + 10
  else if between "A" "F" c then code c - 65 + 10
  else 0.

(** Whether byte [c] is written as a percent escape in the part of a URL
    that [mode] names. *)
Definition shouldEscape (c : ascii) (mode : encoding) : bool :=
  if is_alnum c then false
  else if is_host_mode mode
          && (one_of "!$&'()*+,;=:[]<>" c || Ascii.eqb c "034") then false
  else if one_of "-_.~" c then false
  else if one_of "$&+,/:;=?@" c then
    match mode with
    | encodePath => Ascii.eqb c "?"
    | encodePathSegment => one_of "/;,?" c
    | encodeUserPassword => one_of "@/?:" c
    | encodeQueryComponent => true
    | encodeFragment => false
    | _ => true
    end
  else if match mode with encodeFragment => one_of "!()*" c | _ => false end
  then false
  else true.

Definition EscapeError (s : string) : error :=
  errors_New ("invalid URL escape " ++ s).
Definition InvalidHostError (s : string) : error :=
  errors_New ("invalid character " ++ s ++ " in host name").

Definition byte_of (hi lo : ascii) : ascii :=
  ascii_of_N (unhex hi * 16 + unhex lo).

(** The first pass of [unescape]: the first ill-formed escape or byte a
    host may not hold, if any. *)
Fixpoint unescape_check (s : string) (mode : encoding) : option error :=
  match s with
  | EmptyString => None
  | String "%" rest =>
      match rest with
      | String h (String l rest') =>
          if negb (ishex h && ishex l) then Some (EscapeError (strings.take 3 s))
          else if match mode with encodeHost => true | _ => false end
                  && (unhex h <? 8)%N
                  && negb (String.eqb (strings.take 3 s) "%25")
          then Some (EscapeError (strings.take 3 s))
          else if match mode with encodeZone => true | _ => false end
                  && negb (String.eqb (strings.take 3 s) "%25")
                  && negb (Ascii.eqb (byte_of h l) " ")
                  && shouldEscape (byte_of h l) encodeHost
          then Some (EscapeError (strings.take 3 s))
          else unescape_check rest' mode
      | _ => Some (EscapeError (strings.take 3 s))
      end
  | String c rest =>
      if negb (Ascii.eqb c "+") && is_host_mode mode
         && (code c <? 128)%N && shouldEscape c encodeHost
      then Some (InvalidHostError (String c EmptyString))
      else unescape_check rest mode
  end.

(** The second pass of [unescape], run on a checked string. *)
Fixpoint unescape_build (s : string) (mode : encoding) : string :=
  match s with
  | EmptyString => EmptyString
  | String "%" (String h (String l rest')) =>
      String (byte_of h l) (unescape_build rest' mode)
  | String "+" rest =>
      String (match mode with encodeQueryComponent => " " | _ => "+" end)%char
             (unescape_build rest mode)
  | String c rest => String c (unescape_build rest mode)
  end.

Definition unescape (s : string) (mode : encoding) : result string :=
  match unescape_check s mode with
  | Some e => Err e
  | None => Ok (unescape_build s mode)
  end.

Definition QueryUnescape (s : string) : result string :=
  unescape s encodeQueryComponent.

Definition upperhex (n : N) : ascii :=
  if (n <? 10)%N then ascii_of_N (48 + n) else ascii_of_N (65 + (n - 10)).

Fixpoint escape (s : string) (mode : encoding) : string :=
  match s with
  | EmptyString => EmptyString
  | String c s' =>
      if shouldEscape c mode then
        if Ascii.eqb c " "
           && match mode with encodeQueryComponent => true | _ => false end
        then String "+" (escape s' mode)
        else String "%" (String (upperhex (code c / 16))
                           (String (upperhex (code c mod 16)) (escape s' mode)))
      else String c (escape s' mode)
  end.

Definition QueryEscape (s : string) : string := escape s encodeQueryComponent.

(** *** Values: a multimap from keys to the values added under them *)

Definition Values : Type := list (string * list string).

Fixpoint Add (v : Values) (key value : string) : Values :=
  match v with
  | [] => [(key, [value])]
  | (k, vs) :: v' =>
      if String.eqb k key then (k, (vs ++ [value])%list) :: v'
      else (k, vs) :: Add v' key value
  end.

Fixpoint lookup (v : Values) (key : string) : list string :=
  match v with
  | [] => []
  | (k, vs) :: v' => if String.eqb k key then vs else lookup v' key
  end.

Definition Get (v : Values) (key : string) : string :=
  match lookup v key with
  | [] => EmptyString
  | value :: _ => value
  end.

(** Insertion of a key into a list of keys sorted by byte order. *)
Fixpoint insert_key (k : string) (keys : list string) : list string :=
  match keys with
  | [] => [k]
  | k' :: keys' =>
      if String.leb k k' then k :: keys else k' :: insert_key k keys'
  end.

Definition sorted_keys (v : Values) : list string :=
  fold_right insert_key [] (map fst v).

Definition write_pair (keyEscaped : string) (buf value : string) : string :=
  (if String.eqb buf EmptyString then buf else buf ++ "&")
    ++ keyEscaped ++ "=" ++ QueryEscape value.

(** [Values.Encode]: "k=v" pairs joined by "&", keys in sorted order. *)
Definition Encode (v : Values) : string :=
  fold_left
    (fun buf k => fold_left (write_pair (QueryEscape k)) (lookup v k) buf)
    (sorted_keys v) EmptyString.

(** The "&"-separated fields that the loop of [parseQuery] visits. *)
Fixpoint fields (query : string) : list string :=
  match query with
  | EmptyString => []
  | String c q' =>
      if Ascii.eqb c "&" then EmptyString :: fields q'
      else match fields q' with
           | [] => [String c EmptyString]
           | f :: fs => String c f :: fs
           end
  end.

(** One turn of the loop of [parseQuery]. *)
Definition parseQuery_field (st : Values * option error) (key : string)
  : Values * option error :=
  let '(m, err) := st in
  if strings.Contains key ";" then
    (m, Some (fmt_Errorf "invalid semicolon separator in query" []))
  else if String.eqb key EmptyString then (m, err)
  else
    let '(key, value, _) := strings.Cut key "=" in
    match QueryUnescape key with
    | Err err1 => (m, match err with None => Some err1 | _ => err end)
    | Ok key =>
        match QueryUnescape value with
        | Err err1 => (m, match err with None => Some err1 | _ => err end)
        | Ok value => (Add m key value, err)
        end
    end.

Definition ParseQuery (query : string) : Values * option error :=
  fold_left parseQuery_field (fields query) ([], None).

(** *** URL *)

Record URL : Type := mkURL {
  Scheme : string;
  Opaque : string;
  Host : string;
  Path : string;
  ForceQuery : bool;
  RawQuery : string;
  Fragment : string
}.

(** [URL.Query]: the parsed raw query, malformed pairs dropped. *)
Definition Query (u : URL) : Values := fst (ParseQuery (RawQuery u)).

Definition stringContainsCTLByte (s : string) : bool :=
  negb (strings.all (fun c => negb ((code c <? 32)%N || Ascii.eqb c "127")) s).

(** The loop of [getScheme]: [pre] is the text already read, [s] the text
    still to read. *)
Fixpoint getScheme_loop (rawURL pre s : string) : string * string * option error :=
  match s with
  | EmptyString => (EmptyString, rawURL, None)
  | String c s' =>
      if is_lower c || is_upper c then
        getScheme_loop rawURL (pre ++ String c EmptyString) s'
      else if is_digit c || one_of "+-." c then
        if String.eqb pre EmptyString then (EmptyString, rawURL, None)
        else getScheme_loop rawURL (pre ++ String c EmptyString) s'
      else if Ascii.eqb c ":" then
        if String.eqb pre EmptyString
        then (EmptyString, EmptyString, Some (errors_New "missing protocol scheme"))
        else (pre, s', None)
      else (EmptyString, rawURL, None)
  end.

Definition getScheme (rawURL : string) : string * string * option error :=
  getScheme_loop rawURL EmptyString rawURL.

Definition validOptionalPort (port : string) : bool :=
  match port with
  | EmptyString => true
  | String c digits => Ascii.eqb c ":" && strings.all is_digit digits
  end.

Definition invalid_port (colonPort : string) : error :=
  fmt_Errorf "invalid port %q after host" [arg_string colonPort].

Definition parseHost (host : string) : result string :=
  if strings.HasPrefix host "[" then
    match strings.LastIndexByte host "]" with
    | None => Err (errors_New "missing ']' in host")
    | Some i =>
        let colonPort := strings.drop (S i) host in
        if negb (validOptionalPort colonPort) then Err (invalid_port colonPort)
        else
          match strings.Index (strings.take i host) "%25" with
          | Some zone =>
              match unescape (strings.take zone host) encodeHost with
              | Err e => Err e
              | Ok host1 =>
                  match unescape (strings.drop zone (strings.take i host)) encodeZone with
                  | Err e => Err e
                  | Ok host2 =>
                      match unescape (strings.drop i host) encodeHost with
                      | Err e => Err e
                      | Ok host3 => Ok (host1 ++ host2 ++ host3)
                      end
                  end
              end
          | None => unescape host encodeHost
          end
    end
  else
    match strings.LastIndexByte host ":" with
    | Some i =>
        let colonPort := strings.drop i host in
        if negb (validOptionalPort colonPort) then Err (invalid_port colonPort)
        else unescape host encodeHost
    | None => unescape host encodeHost
    end.

Definition validUserinfo (s : string) : bool :=
  strings.all (fun c => is_alnum c || one_of "-._:~!$&'()*+,;=%@" c) s.

(** [parseAuthority], the user information checked and then dropped. *)
Definition parseAuthority (authority : string) : result string :=
  match strings.LastIndexByte authority "@" with
  | None => parseHost authority
  | Some i =>
      match parseHost (strings.drop (S i) authority) with
      | Err e => Err e
      | Ok host =>
          let userinfo := strings.take i authority in
          if negb (validUserinfo userinfo)
          then Err (errors_New "net/url: invalid userinfo")
          else
            let '(username, password, _) := strings.Cut userinfo ":" in
            match unescape username encodeUserPassword with
            | Err e => Err e
            | Ok _ =>
                match unescape password encodeUserPassword with
                | Err e => Err e
                | Ok _ => Ok host
                end
            end
      end
  end.

(** What [parse] does once scheme and query are split off [rest]. *)
Definition parse_rest (viaRequest : bool) (scheme rest : string)
           (forceQuery : bool) (rawQuery : string) : result URL :=
  let u host path := mkURL scheme EmptyString host path forceQuery rawQuery EmptyString in
  if negb (strings.HasPrefix rest "/") && negb (String.eqb scheme EmptyString) then
    Ok (mkURL scheme rest EmptyString EmptyString forceQuery rawQuery EmptyString)
  else if negb (strings.HasPrefix rest "/") && viaRequest then
    Err (errors_New "invalid URI for request")
  else if negb (strings.HasPrefix rest "/")
          && strings.Contains (fst (fst (strings.Cut rest "/"))) ":" then
    Err (errors_New "first path segment in URL cannot contain colon")
  else if (negb (String.eqb scheme EmptyString)
           || negb viaRequest && negb (strings.HasPrefix rest "///"))
          && strings.HasPrefix rest "//" then
    let authority := strings.drop 2 rest in
    let '(authority, rest) :=
      match strings.Index authority "/" with
      | Some i => (strings.take i authority, strings.drop i authority)
      | None => (authority, EmptyString)
      end in
    match parseAuthority authority with
    | Err e => Err e
    | Ok host =>
        match unescape rest encodePath with
        | Err e => Err e
        | Ok path => Ok (u host path)
        end
    end
  else
    match unescape rest encodePath with
    | Err e => Err e
    | Ok path => Ok (u EmptyString path)
    end.

Definition parse (rawURL : string) (viaRequest : bool) : result URL :=
  if stringContainsCTLByte rawURL then
    Err (errors_New "net/url: invalid control character in URL")
  else if String.eqb rawURL EmptyString && viaRequest then
    Err (errors_New "empty url")
  else if String.eqb rawURL "*" then
    Ok (mkURL EmptyString EmptyString EmptyString "*" false EmptyString EmptyString)
  else
    match getScheme rawURL with
    | (_, _, Some e) => Err e
    | (scheme, rest, None) =>
        let scheme := strings.ToLower scheme in
        if strings.HasSuffixByte rest "?" && Nat.eqb (strings.CountByte rest "?") 1
        then parse_rest viaRequest scheme
                        (strings.take (String.length rest - 1) rest) true EmptyString
        else
          let '(rest, rawQuery, _) := strings.Cut rest "?" in
          parse_rest viaRequest scheme rest false rawQuery
    end.

Definition setFragment (u : URL) (f : string) : result URL :=
  match unescape f encodeFragment with
  | Err e => Err e
  | Ok frag =>
      Ok (mkURL (Scheme u) (Opaque u) (Host u) (Path u) (ForceQuery u) (RawQuery u) frag)
  end.

Definition Parse (rawURL : string) : result URL :=
  let '(u, frag, _) := strings.Cut rawURL "#" in
  match parse u false with
  | Err e => Err (url_Error "parse" u e)
  | Ok url =>
      if String.eqb frag EmptyString then Ok url
      else match setFragment url frag with
           | Err e => Err (url_Error "parse" rawURL e)
           | Ok url => Ok url
           end
  end.

End url.

(** ** Package go-funk: emptiness *)
Module funk.

(** [funk.IsEmpty] on a string. *)
Definition IsEmpty_string (s : string) : bool := String.eqb s EmptyString.
Definition NotEmpty_string (s : string) : bool := negb (IsEmpty_string s).

(** [funk.IsEmpty] on a decoded JSON value: nil, the empty string, false,
    a numeric zero, and a slice or map of length zero are empty. *)
Definition IsEmpty (obj : any) : bool :=
  match obj with
  | any_nil => true
  | any_string s => String.eqb s EmptyString
  | any_bool b => negb b
  | any_float64 f => (Qnum f =? 0)%Z
  | any_slice l => Nat.eqb (List.length l) 0
  | any_map m => Nat.eqb (List.length m) 0
  end.
Definition NotEmpty (obj : any) : bool := negb (IsEmpty obj).

End funk.

(** ** The models of package client *)

Module RequestHeader.
Record t : Type := mk {
  ID : string;
  Name : string;
  Value : string
}.
End RequestHeader.

Module Monitor.
Record t : Type := mk {
  ID : string;
  TeamName : string;
  MonitorType : string;
  URL : string;
  PronounceableName : string;
  Email : bool;
  SMS : bool;
  Call : bool;
  Push : bool;
  CheckFrequency : Z;
  RequestHeaders : list RequestHeader.t;
  ExpectedStatusCodes : list Z;
  DomainExpiration : Z;
  SSLExpiration : Z;
  PolicyID : string;
  FollowRedirects : bool;
  RequiredKeyword : string;
  TeamWait : Z;
  Paused : bool;
  Port : Z;
  Regions : list string;
  MonitorGroupID : any;
  RecoveryPeriod : Z;
  VerifySSL : bool;
  ConfirmationPeriod : Z;
  HTTPMethod : string;
  RequestTimeout : Z;
  RequestMethod : string;
  AuthUsername : string;
  AuthPassword : string;
  MaintenanceDays : list string;
  MaintenanceFrom : string;
  MaintenanceTo : string;
  MaintenanceTimezone : string;
  RememberCookies : bool;
  PlaywrightScript : string;
  ScenarioName : string;
  Status : string
}.

(** The zero value of the struct. *)
Definition zero : t :=
  mk "" "" "" "" "" false false false false 0 [] [] 0 0 "" false "" 0 false 0
     [] any_nil 0 false 0 "" 0 "" "" "" [] "" "" "" false "" "" "".

(** The assignment [m.ID = id]. *)
Definition set_ID (id : string) (m : t) : t :=
  mk id (TeamName m) (MonitorType m) (URL m) (PronounceableName m) (Email m)
     (SMS m) (Call m) (Push m) (CheckFrequency m) (RequestHeaders m)
     (ExpectedStatusCodes m) (DomainExpiration m) (SSLExpiration m)
     (PolicyID m) (FollowRedirects m) (RequiredKeyword m) (TeamWait m)
     (Paused m) (Port m) (Regions m) (MonitorGroupID m) (RecoveryPeriod m)
     (VerifySSL m) (ConfirmationPeriod m) (HTTPMethod m) (RequestTimeout m)
     (RequestMethod m) (AuthUsername m) (AuthPassword m) (MaintenanceDays m)
     (MaintenanceFrom m) (MaintenanceTo m) (MaintenanceTimezone m)
     (RememberCookies m) (PlaywrightScript m) (ScenarioName m) (Status m).
End Monitor.

Module MonitorGroup.
(** [CreatedAt] and [UpdatedAt] are pointers to a time, kept as an
    optional count of nanoseconds. *)
Record t : Type := mk {
  Name : string;
  TeamName : string;
  SortIndex : Z;
  CreatedAt : option Z;
  UpdatedAt : option Z;
  Paused : bool
}.
End MonitorGroup.

Module Pagination.
Record t : Type := mk {
  First : string;
  Last : string;
  Previous : string;
  Next : string
}.
Definition zero : t := mk "" "" "" "".
End Pagination.

Module EntityWrapper.
Record t (T : Type) : Type := mk {
  ID : string;
  Type_ : string;
  Attributes : T
}.
Arguments mk {T} ID Type_ Attributes.

(** The assignment [w.Attributes = a]. *)
Definition set_Attributes {T : Type} (a : T) (w : t T) : t T :=
  mk (ID w) (Type_ w) a.
End EntityWrapper.

Module ResponseWrapper.
Record t (T : Type) : Type := mk {
  Data : EntityWrapper.t T;
  Errors : any;
  Pagination : Pagination.t
}.
Arguments mk {T} Data Errors Pagination.

Definition zero {T : Type} (z : T) : t T :=
  mk (EntityWrapper.mk "" "" z) any_nil Pagination.zero.

(** The assignment [r.Data = d]. *)
Definition set_Data {T : Type} (d : EntityWrapper.t T) (r : t T) : t T :=
  mk d (Errors r) (Pagination r).
End ResponseWrapper.

Module ListWrapper.
Record t (T : Type) : Type := mk {
  Data : list (EntityWrapper.t T);
  Errors : any;
  Pagination : Pagination.t
}.
Arguments mk {T} Data Errors Pagination.

Definition zero {T : Type} : t T := mk [] any_nil Pagination.zero.
End ListWrapper.

Definition MonitorResponse : Type := ResponseWrapper.t Monitor.t.
Definition MonitorsResponse : Type := ListWrapper.t Monitor.t.
Definition MonitorGroupResponse : Type := ResponseWrapper.t MonitorGroup.t.
Definition MonitorGroupsResponse : Type := ListWrapper.t MonitorGroup.t.

Definition HasNext (p : Pagination.t) : bool :=
  funk.NotEmpty_string (Pagination.Next p).

Definition HasPrevious (p : Pagination.t) : bool :=
  funk.NotEmpty_string (Pagination.Previous p).

Definition GetLastPage (p : Pagination.t) : Z * option error :=
  match url.Parse (Pagination.Last p) with
  | Err err => (0, Some (fmt_Errorf "failed to parse URL: %v" [arg_error (Some err)]))
  | Ok parsedURL =>
      let queryParams := url.Query parsedURL in
      let pageStr := url.Get queryParams "page" in
      if funk.IsEmpty_string pageStr then
        (0, Some (fmt_Errorf "'page' parameter not found in URL" []))
      else
        match strconv.Atoi pageStr with
        | (_, Some err) =>
            (0, Some (fmt_Errorf "invalid 'page' value: %v" [arg_error (Some err)]))
        | (page, None) => (page, None)
        end
  end.

(** ** Package net/http as the client uses it *)
Module http.

Definition Header : Type := list (string * list string).

(** [Header.Add] for a key already in canonical form, which both keys of
    the client are. *)
Definition Header_Add (h : Header) (key value : string) : Header :=
  url.Add h key value.

Definition MethodGet : string := "GET".
Definition MethodPost : string := "POST".
Definition MethodPatch : string := "PATCH".
Definition MethodDelete : string := "DELETE".

Definition StatusOK : Z := 200.
Definition StatusCreated : Z := 201.
Definition StatusNoContent : Z := 204.

Record Request : Type := mkRequest {
  Method : string;
  URL : string;
  Header_ : Header;
  Body : option string
}.

(** The assignment [req.Header = h]. *)
Definition set_Header (h : Header) (req : Request) : Request :=
  mkRequest (Method req) (URL req) h (Body req).

(** [http.NewRequest] with one of the four method constants: it fails
    exactly when the target does not parse. *)
Definition NewRequest (method target : string) (body : option string)
  : result Request :=
  match url.Parse target with
  | Err e => Err e
  | Ok _ => Ok (mkRequest method target [] body)
  end.

Record Response (B : Type) : Type := mkResponse {
  StatusCode : Z;
  Status : string;
  RespBody : B
}.

(** The error of a call as Go sees it: nil when the call succeeded. *)
Definition err_of {A : Type} (r : result A) : option error :=
  match r with Ok _ => None | Err e => Some e end.

End http.

(** ** The environment of the client

    [RoundTrip] is [http.DefaultClient.Do] seen from outside: given a
    request and the state of everything beyond the client, a response or
    an error, and the next state.  [Decode_list] and [Decode_one] are
    [json.NewDecoder(body).Decode(&result)] on a zero-valued [result]: the
    value left in [result], and the decoder's error.  [Marshal] is
    [json.Marshal] on a monitor. *)
Class Env : Type := {
  Remote : Type;
  Payload : Type;
  RoundTrip : http.Request -> Remote -> result (http.Response Payload) * Remote;
  Decode_list : Payload -> MonitorsResponse * option error;
  Decode_one : Payload -> MonitorResponse * option error;
  Marshal : Monitor.t -> result string
}.

Section Client.

Context {env : Env}.

(** The world: the remote side, and the requests sent so far, oldest
    first. *)
Record World : Type := mkWorld {
  remote : Remote;
  sent : list http.Request
}.

(** Computations that exchange messages with the remote side. *)
Definition M (A : Type) : Type := World -> A * World.

Definition ret {A : Type} (a : A) : M A := fun w => (a, w).

Definition bind {A B : Type} (m : M A) (k : A -> M B) : M B :=
  fun w => let '(a, w') := m w in k a w'.

Notation "x <- m ;; k" := (bind m (fun x => k))
  (at level 61, m at next level, right associativity).

(** [http.DefaultClient.Do]. *)
Definition Do (req : http.Request) : M (result (http.Response Payload)) :=
  fun w =>
    let '(r, remote') := RoundTrip req (remote w) in
    (r, mkWorld remote' (sent w ++ [req])).

Definition Blanc : string := "".

Definition ContentType : string := "Content-Type".
Definition ApplicationJSON : string := "application/json".

Definition BaseURL : string := "https://uptime.betterstack.com".
Definition APIV2Group : string := BaseURL ++ "/api/v2".
Definition Monitors : string := APIV2Group ++ "/monitors".
(** [fmt.Sprintf(MonitorID, id)]. *)
Definition MonitorID (id : string) : string := APIV2Group ++ "/monitors/" ++ id.
Definition MonitorGroupID (id : string) : string :=
  APIV2Group ++ "/monitor-groups/" ++ id.
Definition MonitorGroups : string := APIV2Group ++ "/monitor-groups".

Record BetterstackClient : Type := mkClient {
  headers : http.Header
}.

Definition getDefaultHeaders : http.Header :=
  http.Header_Add [] ContentType ApplicationJSON.

Definition NewClient (apiToken : string) : BetterstackClient :=
  let headers := getDefaultHeaders in
  let headers := http.Header_Add headers "Authorization" ("Bearer " ++ apiToken) in
  mkClient headers.

(** [NewClientFromENV], given the value [os.Getenv] returns for
    BETTERSTACK_TOKEN; [None] stands for the exit of the process through
    [log.Fatal]. *)
Definition NewClientFromENV (token : string) : option BetterstackClient :=
  if funk.IsEmpty_string token then None
  else
    let headers := getDefaultHeaders in
    let headers := http.Header_Add headers "Authorization" ("Bearer " ++ token) in
    Some (mkClient headers).

(** The operand [%v] of a value of type [error] that may be nil. *)
Definition v_err (e : option error) : fmt_arg := arg_error e.

(** The query parameters [ListMonitors] builds, or the validation error
    it returns before any request exists (lines 54 to 71). *)
Definition list_params (page : Z) (filterType filterValue : string)
  : url.Values + error :=
  let page := if page <? 1 then 1 else page in
  let params := [] in
  let params := url.Add params "per_page" "250" in
  let params := url.Add params "page" (fmt.Sprintf_d page) in
  if funk.NotEmpty_string filterType && funk.NotEmpty_string filterValue then
    if String.eqb filterType "url" then
      inl (url.Add params "url" filterValue)
    else if String.eqb filterType "pronounceable_name" then
      inl (url.Add params "pronounceable_name" filterValue)
    else
      inr (fmt_Errorf "invalid filter type: %s" [arg_string filterType])
  else inl params.

(** Lines 83 to 96 of [ListMonitors]: what is made of the outcome of the
    exchange. *)
Definition list_receive (monitorsResponse : result (http.Response Payload))
  : MonitorsResponse * option error :=
  let result : MonitorsResponse := ListWrapper.zero in
  match monitorsResponse with
  | Err monsRespErr =>
      (result,
       Some (fmt_Errorf "failed to execute request: %v" [v_err (Some monsRespErr)]))
  | Ok monitorsResponse =>
      let '(result, unmErr) := Decode_list (http.RespBody monitorsResponse) in
      match unmErr with
      | Some unmErr =>
          (result,
           Some (fmt_Errorf "failed to unmarshal response: %v" [v_err (Some unmErr)]))
      | None =>
          if funk.NotEmpty (ListWrapper.Errors result) then
            (result,
             Some (fmt_Errorf "failed to list monitors: %v"
                              [arg_any (ListWrapper.Errors result)]))
          else (result, None)
      end
  end.

(** Lines 73 to 82 of [ListMonitors]: the request for [params] is built
    and sent. *)
Definition list_send (c : BetterstackClient) (params : url.Values)
  : M (MonitorsResponse * option error) :=
  let result : MonitorsResponse := ListWrapper.zero in
  let targetURL := Monitors ++ "?" ++ url.Encode params in
  match http.NewRequest http.MethodGet targetURL None with
  | Err monsErr =>
      ret (result,
           Some (fmt_Errorf "failed to create request: %v" [v_err (Some monsErr)]))
  | Ok monitorsRequest =>
      let monitorsRequest := http.set_Header (headers c) monitorsRequest in
      monitorsResponse <- Do monitorsRequest ;;
      ret (list_receive monitorsResponse)
  end.

Definition ListMonitors (c : BetterstackClient) (page : Z)
           (filterType filterValue : string)
  : M (MonitorsResponse * option error) :=
  let result : MonitorsResponse := ListWrapper.zero in
  match list_params page filterType filterValue with
  | inr err => ret (result, Some err)
  | inl params => list_send c params
  end.

(** One turn of the loop [for _, mon := range data]: the identifier of the
    wrapper goes into the attributes, which are appended to [result]. *)
Definition append_monitor (result : list Monitor.t)
           (mon : EntityWrapper.t Monitor.t) : list Monitor.t :=
  let mon :=
    EntityWrapper.set_Attributes
      (Monitor.set_ID (EntityWrapper.ID mon) (EntityWrapper.Attributes mon)) mon in
  result ++ [EntityWrapper.Attributes mon].

Definition append_monitors (result : list Monitor.t)
           (data : list (EntityWrapper.t Monitor.t)) : list Monitor.t :=
  fold_left append_monitor data result.

(** [i++] on a 64-bit [int]. *)
Definition incr (i : Z) : Z := (i + 1 + 2 ^ 63) mod 2 ^ 64 - 2 ^ 63.

(** The loop [for i := page; i <= lastPage; i++] of [ListAllMonitors].
    Each turn takes one unit of [fuel]; [None] means the fuel ran out
    before the loop ended. *)
Fixpoint ListAllMonitors_loop (fuel : nat) (c : BetterstackClient)
         (i lastPage : Z) (result : list Monitor.t) (w : World)
  : option ((list Monitor.t * option error) * World) :=
  if i <=? lastPage then
    match fuel with
    | O => None
    | S fuel' =>
        let '((tempMonitors, tempErr), w') := ListMonitors c i Blanc Blanc w in
        match tempErr with
        | Some tempErr => Some ((result, Some tempErr), w')
        | None =>
            ListAllMonitors_loop fuel' c (incr i) lastPage
              (append_monitors result (ListWrapper.Data tempMonitors)) w'
        end
    end
  else Some ((result, None), w).

Definition ListAllMonitors (fuel : nat) (c : BetterstackClient) (w : World)
  : option ((list Monitor.t * option error) * World) :=
  let result : list Monitor.t := [] in
  let page := 1 in
  let '((monitorResponses, monsErr), w1) := ListMonitors c page Blanc Blanc w in
  match monsErr with
  | Some monsErr => Some ((result, Some monsErr), w1)
  | None =>
      let '(lastPage, paginationErr) :=
        GetLastPage (ListWrapper.Pagination monitorResponses) in
      match paginationErr with
      | Some paginationErr => Some ((result, Some paginationErr), w1)
      | None =>
          let result := append_monitors result (ListWrapper.Data monitorResponses) in
          if page =? lastPage then Some ((result, None), w1)
          else
            let page := incr page in
            ListAllMonitors_loop fuel c page lastPage result w1
      end
  end.

Definition FindMonitor (c : BetterstackClient) (kind val : string)
  : M (list Monitor.t * option error) :=
  let result : list Monitor.t := [] in
  let page := 1 in
  r <- ListMonitors c page kind val ;;
  let '(monitorResponses, monsErr) := r in
  match monsErr with
  | Some monsErr => ret (result, Some monsErr)
  | None => ret (append_monitors result (ListWrapper.Data monitorResponses), None)
  end.

(** The assignment [result.Data.Attributes.ID = result.Data.ID]. *)
Definition copy_ID (result : MonitorResponse) : MonitorResponse :=
  let data := ResponseWrapper.Data result in
  ResponseWrapper.set_Data
    (EntityWrapper.set_Attributes
       (Monitor.set_ID (EntityWrapper.ID data) (EntityWrapper.Attributes data))
       data)
    result.

(** Lines 180 to 191, which the three single-resource operations share
    up to the text of the last message. *)
Definition decode_one (apiFailure : string) (body : Payload)
  : MonitorResponse * option error :=
  let '(result, unmErr) := Decode_one body in
  match unmErr with
  | Some unmErr =>
      (result,
       Some (fmt_Errorf "failed to unmarshal response: %v" [v_err (Some unmErr)]))
  | None =>
      if funk.NotEmpty (ResponseWrapper.Errors result) then
        (result,
         Some (fmt_Errorf apiFailure [arg_any (ResponseWrapper.Errors result)]))
      else (copy_ID result, None)
  end.

Definition CreateMonitor (c : BetterstackClient) (monitor : Monitor.t)
  : M (MonitorResponse * option error) :=
  let result : MonitorResponse := ResponseWrapper.zero Monitor.zero in
  match Marshal monitor with
  | Err serErr => ret (result, Some serErr)
  | Ok serializedBody =>
      let postBody := Some serializedBody in
      match http.NewRequest http.MethodPost Monitors postBody with
      | Err monsErr =>
          ret (result,
               Some (fmt_Errorf "failed to create request: %v" [v_err (Some monsErr)]))
      | Ok monitorRequest =>
          let monitorRequest := http.set_Header (headers c) monitorRequest in
          monitorResponse <- Do monitorRequest ;;
          let monsRespErr := http.err_of monitorResponse in
          let failure :=
            ret (result,
                 Some (fmt_Errorf "failed to execute request: %v" [v_err monsRespErr])) in
          match monitorResponse with
          | Err _ => failure
          | Ok monitorResponse =>
              if negb (http.StatusCode monitorResponse =? http.StatusCreated)
              then failure
              else ret (decode_one "failed to list monitors: %v"
                                   (http.RespBody monitorResponse))
          end
      end
  end.

Definition GetMonitor (c : BetterstackClient) (id : string)
  : M (MonitorResponse * option error) :=
  let result : MonitorResponse := ResponseWrapper.zero Monitor.zero in
  let targetURL := MonitorID id in
  match http.NewRequest http.MethodGet targetURL None with
  | Err monErr =>
      ret (result,
           Some (fmt_Errorf "failed to create request: %v" [v_err (Some monErr)]))
  | Ok monitorRequest =>
      let monitorRequest := http.set_Header (headers c) monitorRequest in
      monitorResponse <- Do monitorRequest ;;
      match monitorResponse with
      | Err monRespErr =>
          ret (result,
               Some (fmt_Errorf "failed to execute request: %v"
                                [v_err (Some monRespErr)]))
      | Ok monitorResponse =>
          ret (decode_one "failed to get monitor: %v" (http.RespBody monitorResponse))
      end
  end.

Definition UpdateMonitor (c : BetterstackClient) (id : string) (monitor : Monitor.t)
  : M (MonitorResponse * option error) :=
  let result : MonitorResponse := ResponseWrapper.zero Monitor.zero in
  match Marshal monitor with
  | Err serErr => ret (result, Some serErr)
  | Ok serializedBody =>
      let postBody := Some serializedBody in
      let targetURL := MonitorID id in
      match http.NewRequest http.MethodPatch targetURL postBody with
      | Err monErr =>
          ret (result,
               Some (fmt_Errorf "failed to create request: %v" [v_err (Some monErr)]))
      | Ok monitorRequest =>
          let monitorRequest := http.set_Header (headers c) monitorRequest in
          monitorResponse <- Do monitorRequest ;;
          match monitorResponse with
          | Err monRespErr =>
              ret (result,
                   Some (fmt_Errorf "failed to execute request: %v"
                                    [v_err (Some monRespErr)]))
          | Ok monitorResponse =>
              if negb (http.StatusCode monitorResponse =? http.StatusOK) then
                ret (result,
                     Some (fmt_Errorf "failed to execute request: %v"
                                      [arg_string (http.Status monitorResponse)]))
              else
                ret (decode_one "failed to update monitor: %v"
                                (http.RespBody monitorResponse))
          end
      end
  end.

Definition DeleteMonitor (c : BetterstackClient) (id : string) : M (option error) :=
  let targetURL := MonitorID id in
  match http.NewRequest http.MethodDelete targetURL None with
  | Err monErr =>
      ret (Some (fmt_Errorf "failed to create request: %v" [v_err (Some monErr)]))
  | Ok monitorRequest =>
      let monitorRequest := http.set_Header (headers c) monitorRequest in
      monitorResponse <- Do monitorRequest ;;
      let monRespErr := http.err_of monitorResponse in
      let failure :=
        ret (Some (fmt_Errorf "failed to execute request: %v" [v_err monRespErr])) in
      match monitorResponse with
      | Err _ => failure
      | Ok monitorResponse =>
          if negb (http.StatusCode monitorResponse =? http.StatusNoContent)
          then failure
          else ret None
      end
  end.

End Client.

(** ** Notions the statements are written in *)

Section Notions.

Context {env : Env}.

(** The decimal numeral of the page a call asks for. *)
Definition page_text (page : Z) : string := fmt.Sprintf_d (Z.max 1 page).

(** The query of a list call, pair by pair in the order of the encoding:
    the page, the page size and, when kind and value are both given, the
    filter. *)
Definition list_pairs (page : Z) (filterType filterValue : string)
  : list (string * string) :=
  [("page", page_text page); ("per_page", "250")]
  ++ (if funk.NotEmpty_string filterType && funk.NotEmpty_string filterValue
      then [(filterType, filterValue)] else []).

(** The request [list_send] hands to the transport for [params]. *)
Definition list_request (c : BetterstackClient) (params : url.Values) : http.Request :=
  http.mkRequest http.MethodGet (Monitors ++ "?" ++ url.Encode params) (headers c) None.

(** The parameters of an unfiltered call for page [i], and its request. *)
Definition page_params (i : Z) : url.Values :=
  [("per_page", ["250"]); ("page", [fmt.Sprintf_d i])].

Definition page_request (c : BetterstackClient) (i : Z) : http.Request :=
  list_request c (page_params i).

(** The query parameters of a request, as net/url reads them off its
    target. *)
Definition query_of (req : http.Request) : url.Values :=
  match url.Parse (http.URL req) with
  | Ok u => url.Query u
  | Err _ => []
  end.

(** The attributes of a wrapper, carrying the identifier of the wrapper. *)
Definition with_id (mon : EntityWrapper.t Monitor.t) : Monitor.t :=
  Monitor.set_ID (EntityWrapper.ID mon) (EntityWrapper.Attributes mon).

(** The transport, in state [rem], answers the unfiltered request for page
    [i] with a body that decodes to [r], whose [errors] field is empty, and
    moves to state [rem']. *)
Definition serves_page (c : BetterstackClient) (i : Z)
           (rem : Remote) (r : MonitorsResponse) (rem' : Remote) : Prop :=
  exists resp,
    RoundTrip (page_request c i) rem = (Ok resp, rem')
    /\ Decode_list (http.RespBody resp) = (r, None)
    /\ funk.IsEmpty (ListWrapper.Errors r) = true.

(** Successive unfiltered calls for pages [i], [i+1], ... succeed with
    the envelopes [rs] and lead from world [w] to world [w']. *)
Fixpoint pages_listed (c : BetterstackClient) (i : Z)
         (rs : list MonitorsResponse) (w w' : World) : Prop :=
  match rs with
  | [] => w' = w
  | r :: rs' =>
      exists w1, ListMonitors c i Blanc Blanc w = ((r, None), w1)
                 /\ pages_listed c (i + 1) rs' w1 w'
  end.

(** The envelopes [rs] were received, in this order, through successive
    unfiltered list calls that succeeded and led from world [w] to [w']. *)
Inductive received (c : BetterstackClient)
  : World -> list MonitorsResponse -> World -> Prop :=
| received_nil w : received c w [] w
| received_cons w i r w1 rs w' :
    ListMonitors c i Blanc Blanc w = ((r, None), w1) ->
    received c w1 rs w' ->
    received c w (r :: rs) w'.

(** The requests of the single-resource operations. *)
Definition create_request (c : BetterstackClient) (body : string) : http.Request :=
  http.mkRequest http.MethodPost Monitors (headers c) (Some body).

Definition get_request (c : BetterstackClient) (id : string) : http.Request :=
  http.mkRequest http.MethodGet (MonitorID id) (headers c) None.

Definition update_request (c : BetterstackClient) (id body : string) : http.Request :=
  http.mkRequest http.MethodPatch (MonitorID id) (headers c) (Some body).

Definition delete_request (c : BetterstackClient) (id : string) : http.Request :=
  http.mkRequest http.MethodDelete (MonitorID id) (headers c) None.

(** The exchange of an operation: the call reaches the transport, in
    world [w], with the request of the operation, and the transport answers
    with the response [resp], leaving world [w']. *)
Definition listed (c : BetterstackClient) (page : Z) (filterType filterValue : string)
           (w : World) (resp : http.Response Payload) (w' : World) : Prop :=
  exists params,
    list_params page filterType filterValue = inl params
    /\ Do (list_request c params) w = (Ok resp, w').

Definition got (c : BetterstackClient) (id : string)
           (w : World) (resp : http.Response Payload) (w' : World) : Prop :=
  exists u,
    url.Parse (MonitorID id) = Ok u
    /\ Do (get_request c id) w = (Ok resp, w').

Definition created (c : BetterstackClient) (monitor : Monitor.t)
           (w : World) (resp : http.Response Payload) (w' : World) : Prop :=
  exists body,
    Marshal monitor = Ok body
    /\ Do (create_request c body) w = (Ok resp, w').

Definition updated (c : BetterstackClient) (id : string) (monitor : Monitor.t)
           (w : World) (resp : http.Response Payload) (w' : World) : Prop :=
  exists body u,
    Marshal monitor = Ok body
    /\ url.Parse (MonitorID id) = Ok u
    /\ Do (update_request c id body) w = (Ok resp, w').

Definition deleted (c : BetterstackClient) (id : string)
           (w : World) (resp : http.Response Payload) (w' : World) : Prop :=
  exists u,
    url.Parse (MonitorID id) = Ok u
    /\ Do (delete_request c id) w = (Ok resp, w').

(** The identifier a single envelope shows in its attributes, and the one
    of its wrapper. *)
Definition attributes_id (r : MonitorResponse) : string :=
  Monitor.ID (EntityWrapper.Attributes (ResponseWrapper.Data r)).

Definition wrapper_id (r : MonitorResponse) : string :=
  EntityWrapper.ID (ResponseWrapper.Data r).

(** All items of the envelopes [rs], page after page. *)
Definition items_of (rs : list MonitorsResponse) : list (EntityWrapper.t Monitor.t) :=
  List.concat (map (@ListWrapper.Data Monitor.t) rs).

End Notions.

(** The message of a failure of the request execution (lines 84, 177,
    207, 243 and 276): the format every operation uses when
    [http.DefaultClient.Do] returns an error. *)
Definition request_execution_format : string := "failed to execute request: %v".

Definition is_request_execution_failure (e : error) : bool :=
  match e with
  | fmt_Errorf format _ => String.eqb format request_execution_format
  | _ => false
  end.

(** The two filter kinds [ListMonitors] recognizes. *)
Definition recognized (filterType : string) : bool :=
  String.eqb filterType "url" || String.eqb filterType "pronounceable_name".

(** How many of the two filter parameters a request carries. *)
Definition filters_set (q : url.Values) : nat :=
  (List.length (url.lookup q "url")
   + List.length (url.lookup q "pronounceable_name"))%nat.

(** Bytes that [Values.Encode] can emit. *)
Definition query_byte (c : ascii) : bool := is_alnum c || one_of "-_.~%+&=" c.

(** Bytes that [QueryEscape] leaves as they are. *)
Definition plain (c : ascii) : bool :=
  negb (url.shouldEscape c url.encodeQueryComponent).

(** One "key=value" pair as [Values.Encode] writes it, and pairs joined
    by "&". *)
Definition pair_text (kv : string * string) : string :=
  fst kv ++ "=" ++ url.QueryEscape (snd kv).

Fixpoint join_pairs (ps : list (string * string)) : string :=
  match ps with
  | [] => EmptyString
  | [kv] => pair_text kv
  | kv :: ps' => pair_text kv ++ "&" ++ join_pairs ps'
  end.

Definition add_pair (m : url.Values) (kv : string * string) : url.Values :=
  url.Add m (fst kv) (snd kv).

(** A key the encoder writes unchanged. *)
Definition plain_key (k : string) : Prop :=
  k <> EmptyString /\ strings.all plain k = true.

(** What net/url makes of the target of a list request with raw query [q]. *)
Definition list_url (q : string) : url.URL :=
  url.mkURL "https" "" "uptime.betterstack.com" "/api/v2/monitors" false q "".

(** The value of the decimal digits [d] read after the value [acc]. *)
Fixpoint digits_value (acc : Z) (d : Decimal.uint) : Z :=
  match d with
  | Decimal.Nil => acc
  | Decimal.D0 d' => digits_value (10 * acc) d'
  | Decimal.D1 d' => digits_value (10 * acc + 1) d'
  | Decimal.D2 d' => digits_value (10 * acc + 2) d'
  | Decimal.D3 d' => digits_value (10 * acc + 3) d'
  | Decimal.D4 d' => digits_value (10 * acc + 4) d'
  | Decimal.D5 d' => digits_value (10 * acc + 5) d'
  | Decimal.D6 d' => digits_value (10 * acc + 6) d'
  | Decimal.D7 d' => digits_value (10 * acc + 7) d'
  | Decimal.D8 d' => digits_value (10 * acc + 8) d'
  | Decimal.D9 d' => digits_value (10 * acc + 9) d'
  end.

(** The largest and the smallest [int]. *)
Definition MaxInt64 : Z := 2 ^ 63 - 1.
Definition MinInt64 : Z := - 2 ^ 63.

(** [s] does not hold the byte [b]. *)
Definition without (b : ascii) (s : string) : bool :=
  strings.all (fun c => negb (Ascii.eqb b c)) s.

(** Bytes of an identifier that net/url takes as they are in a path: no
    control byte, and none of "#", "?" and "%". *)
Definition id_byte (c : ascii) : bool :=
  negb ((code c <? 32)%N || Ascii.eqb c "127") && negb (one_of "#?%" c).

(** What net/url makes of the target of a single-resource request. *)
Definition single_url (id : string) : url.URL :=
  url.mkURL "https" "" "uptime.betterstack.com" ("/api/v2/monitors/" ++ id)
            false "" "".

(** The pages [i], [i+1], ..., [n] of them. *)
Definition pages_from (i : Z) (n : nat) : list Z :=
  map (fun j => i + Z.of_nat j) (seq 0 n).

(** The failure of a request that could not be built (lines 77, 170, 200,
    236 and 269). *)
Definition request_creation_format : string := "failed to create request: %v".

(** The formats of the failures [ListMonitors] builds (lines 69, 84, 89
    and 93), and those of [CreateMonitor] once the monitor is serialized
    (lines 177, 182 and 186). *)
Definition list_failure_formats : list string :=
  ["invalid filter type: %s"; "failed to execute request: %v";
   "failed to unmarshal response: %v"; "failed to list monitors: %v"].

Definition create_failure_formats : list string :=
  ["failed to execute request: %v"; "failed to unmarshal response: %v";
   "failed to list monitors: %v"].

(** The failure of net/url on a control byte. *)
Definition control_byte_failure (target : string) : error :=
  url_Error "parse" target (errors_New "net/url: invalid control character in URL").

(** ** A fake transport

    A stateless remote side that answers by the target of the request.  A
    payload carries what the decoder makes of it as a list envelope and as
    a single envelope. *)
Module Fake.

Record payload : Type := mkPayload {
  as_list : MonitorsResponse * option error;
  as_one : MonitorResponse * option error
}.

Definition transport (route : http.Request -> result (http.Response payload)) : Env :=
  {| Remote := unit;
     Payload := payload;
     RoundTrip := fun req _ => (route req, tt);
     Decode_list := as_list;
     Decode_one := as_one;
     Marshal := fun _ => Ok "{}" |}.

Definition monitor (id : string) : EntityWrapper.t Monitor.t :=
  EntityWrapper.mk id "monitor" Monitor.zero.

Definition mismatch : error :=
  errors_New "ReadObjectCB: expect { or n, but found [".

(** A body holding a list envelope. *)
Definition list_body (data : list (EntityWrapper.t Monitor.t)) (errors : any)
           (last : string) : payload :=
  mkPayload (ListWrapper.mk data errors (Pagination.mk "" last "" ""), None)
            (ResponseWrapper.zero Monitor.zero, Some mismatch).

(** A body holding a single envelope. *)
Definition one_body (data : EntityWrapper.t Monitor.t) (errors : any) : payload :=
  mkPayload (ListWrapper.zero, Some mismatch)
            (ResponseWrapper.mk data errors Pagination.zero, None).

Definition ok (body : payload) : result (http.Response payload) :=
  Ok (http.mkResponse 200 "200 OK" body).

Definition refused : result (http.Response payload) :=
  Err (errors_New "dial tcp: connection refused").

Definition page_target (i : string) : string :=
  "https://uptime.betterstack.com/api/v2/monitors?page=" ++ i ++ "&per_page=250".

Definition last3 : string := "https://uptime.betterstack.com/api/v2/monitors?page=3".

(** Three pages of two monitors each. *)
Definition three_pages (req : http.Request) : result (http.Response payload) :=
  if String.eqb (http.URL req) (page_target "1")
  then ok (list_body [monitor "a"; monitor "b"] any_nil last3)
  else if String.eqb (http.URL req) (page_target "2")
  then ok (list_body [monitor "c"; monitor "d"] any_nil last3)
  else if String.eqb (http.URL req) (page_target "3")
  then ok (list_body [monitor "e"; monitor "f"] any_nil last3)
  else refused.

(** The same collection, with the second page out of reach. *)
Definition page2_down (req : http.Request) : result (http.Response payload) :=
  if String.eqb (http.URL req) (page_target "2") then refused else three_pages req.

(** Nothing answers. *)
Definition down (req : http.Request) : result (http.Response payload) := refused.

(** One page of two monitors whose "last" link is empty. *)
Definition no_last_link (req : http.Request) : result (http.Response payload) :=
  if String.eqb (http.URL req) (page_target "1")
  then ok (list_body [monitor "a"; monitor "b"] any_nil "")
  else refused.

(** Every request is answered with the given status and a body that
    decodes cleanly as a single envelope. *)
Definition status (code : Z) (text : string) (req : http.Request)
  : result (http.Response payload) :=
  Ok (http.mkResponse code text (one_body (monitor "a") any_nil)).

(** Every request is answered 200, 201 or 204 by its method, with a body
    whose [errors] field is [errors]. *)
Definition reports (errors : any) (req : http.Request)
  : result (http.Response payload) :=
  let code := if String.eqb (http.Method req) http.MethodPost then 201
              else if String.eqb (http.Method req) http.MethodDelete then 204
              else 200 in
  Ok (http.mkResponse code "" (mkPayload
        (ListWrapper.mk [monitor "a"] errors Pagination.zero, None)
        (ResponseWrapper.mk (monitor "a") errors Pagination.zero, None))).

(** Every request is answered with one monitor and a "last" link that
    names the largest page an [int] can hold. *)
Definition endless (req : http.Request) : result (http.Response payload) :=
  ok (list_body [monitor "a"] any_nil
        "https://uptime.betterstack.com/api/v2/monitors?page=9223372036854775807").

(** One page of two monitors whose "last" link names page 0, and one
    whose "last" link has a page that is no number. *)
Definition last_is_zero (req : http.Request) : result (http.Response payload) :=
  if String.eqb (http.URL req) (page_target "1")
  then ok (list_body [monitor "a"; monitor "b"] any_nil
             "https://uptime.betterstack.com/api/v2/monitors?page=0")
  else refused.

Definition last_is_text (req : http.Request) : result (http.Response payload) :=
  if String.eqb (http.URL req) (page_target "1")
  then ok (list_body [monitor "a"; monitor "b"] any_nil
             "https://uptime.betterstack.com/api/v2/monitors?page=two")
  else refused.

(** A transport under a serializer that refuses every monitor. *)
Definition unsupported : error := errors_New "json: unsupported type: chan int".

Definition unserializable (route : http.Request -> result (http.Response payload))
  : Env :=
  {| Remote := unit;
     Payload := payload;
     RoundTrip := fun req _ => (route req, tt);
     Decode_list := as_list;
     Decode_one := as_one;
     Marshal := fun _ => Err unsupported |}.

Definition client : BetterstackClient := NewClient "token".

Definition start (route : http.Request -> result (http.Response payload))
  : @World (transport route) := @mkWorld (transport route) tt [].

End Fake.

(** ** Sample data for the fake transport *)

Module Witness.

Import Fake.

Definition page1 : MonitorsResponse :=
  ListWrapper.mk [monitor "a"; monitor "b"] any_nil (Pagination.mk "" last3 "" "").
Definition page2 : MonitorsResponse :=
  ListWrapper.mk [monitor "c"; monitor "d"] any_nil (Pagination.mk "" last3 "" "").
Definition page3 : MonitorsResponse :=
  ListWrapper.mk [monitor "e"; monitor "f"] any_nil (Pagination.mk "" last3 "" "").


(** The failures the fake transport leads to. *)
Definition page_not_found : error :=
  fmt_Errorf "'page' parameter not found in URL" [].

Definition refused_failure : error :=
  fmt_Errorf "failed to execute request: %v"
             [arg_error (Some (errors_New "dial tcp: connection refused"))].

Definition no_cause : error :=
  fmt_Errorf "failed to execute request: %v" [arg_error None].

(** The response of [status code text]. *)
Definition answer (code : Z) (text : string) : http.Response payload :=
  http.mkResponse code text (one_body (monitor "a") any_nil).


(** An identifier that ends in a line feed. *)
Definition broken_id : string := String "7" (String "010" EmptyString).

(** The envelopes of [last_is_zero], [last_is_text] and [endless]. *)
Definition page_zero : MonitorsResponse :=
  ListWrapper.mk [monitor "a"; monitor "b"] any_nil
    (Pagination.mk "" "https://uptime.betterstack.com/api/v2/monitors?page=0" "" "").

Definition page_text_last : MonitorsResponse :=
  ListWrapper.mk [monitor "a"; monitor "b"] any_nil
    (Pagination.mk "" "https://uptime.betterstack.com/api/v2/monitors?page=two" "" "").

Definition not_a_number : error :=
  fmt_Errorf "invalid 'page' value: %v"
             [arg_error (Some (strconv_NumError "Atoi" "two" strconv.ErrSyntax))].

End Witness.

(** * Facts *)

Unset Implicit Arguments.

(** ** Bytes and strings *)

Lemma ascii_cases (P : ascii -> Prop) :
  (forall b0 b1 b2 b3 b4 b5 b6 b7, P (Ascii b0 b1 b2 b3 b4 b5 b6 b7)) ->
  forall c, P c.
Proof. intros H [b0 b1 b2 b3 b4 b5 b6 b7]. apply H. Qed.

(** Settles a statement about one byte on each of the 256 bytes. *)
Ltac by_bytes :=
  let c := fresh "c" in
  intro c; pattern c; apply ascii_cases; clear c;
  intros [] [] [] [] [] [] [] []; vm_compute;
  try reflexivity; try discriminate; auto.

Lemma all_append p a b :
  strings.all p (a ++ b) = strings.all p a && strings.all p b.
Proof.
  induction a as [|c a IH]; simpl; [reflexivity|].
  rewrite IH. apply andb_assoc.
Qed.

Lemma all_impl (p q : ascii -> bool) s :
  (forall c, p c = true -> q c = true) ->
  strings.all p s = true -> strings.all q s = true.
Proof.
  intros Hpq. induction s as [|c s IH]; simpl; [reflexivity|].
  intros H. apply andb_true_iff in H as [Hc Hs].
  rewrite (Hpq _ Hc), (IH Hs). reflexivity.
Qed.

Lemma append_assoc3 (a b c : string) : (a ++ b) ++ c = a ++ b ++ c.
Proof. induction a as [|x a IH]; simpl; [reflexivity|]. now rewrite IH. Qed.

Lemma Cut_absent (sep : ascii) s :
  strings.all (fun c => negb (Ascii.eqb sep c)) s = true ->
  strings.Cut s (String sep EmptyString) = (s, EmptyString, false).
Proof.
  induction s as [|c s IH]; simpl; [reflexivity|].
  intros H. apply andb_true_iff in H as [Hc Hs].
  apply negb_true_iff in Hc. rewrite Hc. simpl. rewrite (IH Hs). reflexivity.
Qed.

Lemma Cut_first (sep : ascii) a b :
  strings.all (fun c => negb (Ascii.eqb sep c)) a = true ->
  strings.Cut (a ++ String sep b) (String sep EmptyString) = (a, b, true).
Proof.
  induction a as [|c a IH]; simpl.
  - intros _. rewrite Ascii.eqb_refl. reflexivity.
  - intros H. apply andb_true_iff in H as [Hc Hs].
    apply negb_true_iff in Hc. rewrite Hc. simpl. rewrite (IH Hs). reflexivity.
Qed.

Lemma Contains_absent (sep : ascii) s :
  strings.all (fun c => negb (Ascii.eqb sep c)) s = true ->
  strings.Contains s (String sep EmptyString) = false.
Proof.
  unfold strings.Contains.
  induction s as [|c s IH]; simpl; [reflexivity|].
  intros H. apply andb_true_iff in H as [Hc Hs].
  apply negb_true_iff in Hc. rewrite Hc. simpl.
  specialize (IH Hs). destruct (strings.Index s (String sep "")); [discriminate|reflexivity].
Qed.

Lemma HasSuffixByte_append r q c :
  q <> EmptyString -> strings.HasSuffixByte (r ++ q) c = strings.HasSuffixByte q c.
Proof.
  intros Hq. induction r as [|a r IH]; [reflexivity|].
  simpl. destruct (r ++ q) eqn:E.
  - destruct r; simpl in E; [congruence|discriminate].
  - exact IH.
Qed.

Lemma HasSuffixByte_all p s c :
  strings.all p s = true -> p c = false -> strings.HasSuffixByte s c = false.
Proof.
  intros Hs Hc. induction s as [|a s IH]; [reflexivity|].
  simpl in Hs. apply andb_true_iff in Hs as [Ha Hs].
  simpl. destruct s.
  - destruct (Ascii.eqb a c) eqn:E; [|reflexivity].
    apply Ascii.eqb_eq in E. congruence.
  - apply IH, Hs.
Qed.

(** ** Escaping *)

Lemma plain_query_byte : forall c, plain c = true -> query_byte c = true.
Proof. by_bytes. Qed.

Lemma upperhex_query_byte :
  forall c, query_byte (url.upperhex (code c / 16)) = true
            /\ query_byte (url.upperhex (code c mod 16)) = true.
Proof. by_bytes. Qed.

Lemma query_byte_not_hash :
  forall c, query_byte c = true -> negb (Ascii.eqb "#" c) = true.
Proof. by_bytes. Qed.

Lemma query_byte_not_semicolon :
  forall c, query_byte c = true -> negb (Ascii.eqb ";" c) = true.
Proof. by_bytes. Qed.

Lemma query_byte_not_ctl :
  forall c, query_byte c = true ->
            negb ((code c <? 32)%N || Ascii.eqb c "127") = true.
Proof. by_bytes. Qed.

Lemma plain_not_eq : forall c, plain c = true -> negb (Ascii.eqb "=" c) = true.
Proof. by_bytes. Qed.

Lemma plain_not_amp : forall c, plain c = true -> negb (Ascii.eqb "&" c) = true.
Proof. by_bytes. Qed.

Lemma QueryEscape_query_bytes s : strings.all query_byte (url.QueryEscape s) = true.
Proof.
  unfold url.QueryEscape.
  induction s as [|c s IH]; simpl; [reflexivity|].
  destruct (url.shouldEscape c url.encodeQueryComponent) eqn:E.
  - destruct (Ascii.eqb c " " && true); simpl.
    + exact IH.
    + destruct (upperhex_query_byte c) as [-> ->]. simpl. exact IH.
  - simpl. rewrite plain_query_byte by (unfold plain; now rewrite E). exact IH.
Qed.

Lemma QueryEscape_plain s : strings.all plain s = true -> url.QueryEscape s = s.
Proof.
  unfold url.QueryEscape.
  induction s as [|c s IH]; simpl; [reflexivity|].
  intros H. apply andb_true_iff in H as [Hc Hs].
  unfold plain in Hc. apply negb_true_iff in Hc. rewrite Hc, (IH Hs). reflexivity.
Qed.

Lemma unescape_check_cons :
  forall c s,
    url.unescape_check (url.escape (String c s) url.encodeQueryComponent)
                       url.encodeQueryComponent
    = url.unescape_check (url.escape s url.encodeQueryComponent)
                         url.encodeQueryComponent.
Proof.
  intro c; pattern c; apply ascii_cases; clear c.
  intros [] [] [] [] [] [] [] [] s; reflexivity.
Qed.

Lemma unescape_build_cons :
  forall c s,
    url.unescape_build (url.escape (String c s) url.encodeQueryComponent)
                       url.encodeQueryComponent
    = String c (url.unescape_build (url.escape s url.encodeQueryComponent)
                                   url.encodeQueryComponent).
Proof.
  intro c; pattern c; apply ascii_cases; clear c.
  intros [] [] [] [] [] [] [] [] s; reflexivity.
Qed.

(** What [QueryEscape] writes, [QueryUnescape] reads back. *)
Lemma QueryUnescape_QueryEscape s : url.QueryUnescape (url.QueryEscape s) = Ok s.
Proof.
  unfold url.QueryUnescape, url.QueryEscape, url.unescape.
  assert (Hc : url.unescape_check (url.escape s url.encodeQueryComponent)
                                  url.encodeQueryComponent = None).
  { induction s as [|c s IH]; [reflexivity|]. now rewrite unescape_check_cons. }
  rewrite Hc. f_equal.
  induction s as [|c s IH]; [reflexivity|].
  rewrite unescape_build_cons, IH; [reflexivity|].
  now rewrite unescape_check_cons in Hc.
Qed.

Lemma QueryUnescape_plain s : strings.all plain s = true -> url.QueryUnescape s = Ok s.
Proof.
  intros H. rewrite <- (QueryEscape_plain _ H) at 1. apply QueryUnescape_QueryEscape.
Qed.

(** ** Decimal numerals *)

Lemma string_of_uint_plain d : strings.all plain (NilEmpty.string_of_uint d) = true.
Proof. induction d; simpl; auto. Qed.

Lemma Sprintf_d_plain n : strings.all plain (fmt.Sprintf_d n) = true.
Proof.
  unfold fmt.Sprintf_d, NilZero.string_of_int, NilZero.string_of_uint.
  destruct (Z.to_int n) as [d|d]; destruct d; simpl; try reflexivity;
    apply string_of_uint_plain.
Qed.

(** ** Reading a query back *)

Lemma all_String p c s : strings.all p (String c s) = p c && strings.all p s.
Proof. reflexivity. Qed.

Lemma fields_String c q :
  url.fields (String c q)
  = if Ascii.eqb c "&" then EmptyString :: url.fields q
    else match url.fields q with
         | [] => [String c EmptyString]
         | f :: fs => String c f :: fs
         end.
Proof. reflexivity. Qed.

Lemma fields_cons a b :
  strings.all (fun c => negb (Ascii.eqb "&" c)) a = true ->
  url.fields (a ++ String "&" b) = a :: url.fields b.
Proof.
  induction a as [|c a IH]; [reflexivity|].
  rewrite all_String. intros H. apply andb_true_iff in H as [Hc Hs].
  rewrite Ascii.eqb_sym in Hc. apply negb_true_iff in Hc.
  change (String c a ++ String "&" b) with (String c (a ++ String "&" b)).
  rewrite fields_String, Hc, (IH Hs). reflexivity.
Qed.

Lemma fields_single a :
  a <> EmptyString ->
  strings.all (fun c => negb (Ascii.eqb "&" c)) a = true ->
  url.fields a = [a].
Proof.
  induction a as [|c a IH]; [congruence|]. intros _ H.
  rewrite all_String in H. apply andb_true_iff in H as [Hc Hs].
  rewrite Ascii.eqb_sym in Hc. apply negb_true_iff in Hc.
  rewrite fields_String, Hc. destruct a as [|d a]; [reflexivity|].
  rewrite IH by (discriminate || exact Hs). reflexivity.
Qed.

Lemma escaped_not_amp :
  forall s, strings.all (fun c => negb (Ascii.eqb "&" c)) (url.QueryEscape s) = true.
Proof.
  unfold url.QueryEscape.
  induction s as [|c s IH]; [reflexivity|].
  revert s IH. pattern c. apply ascii_cases. clear c.
  intros [] [] [] [] [] [] [] [] s IH; exact IH.
Qed.

Lemma escaped_not_semicolon s :
  strings.all (fun c => negb (Ascii.eqb ";" c)) (url.QueryEscape s) = true.
Proof.
  apply all_impl with (p := query_byte);
    [apply query_byte_not_semicolon | apply QueryEscape_query_bytes].
Qed.

Lemma plain_not_semicolon : forall c, plain c = true -> negb (Ascii.eqb ";" c) = true.
Proof. by_bytes. Qed.

Lemma pair_text_not_amp kv :
  plain_key (fst kv) ->
  strings.all (fun c => negb (Ascii.eqb "&" c)) (pair_text kv) = true.
Proof.
  intros [_ Hk]. unfold pair_text. rewrite !all_append.
  rewrite (all_impl _ _ _ plain_not_amp Hk), escaped_not_amp. reflexivity.
Qed.

Lemma pair_text_not_empty kv : plain_key (fst kv) -> pair_text kv <> EmptyString.
Proof.
  intros [Hne _]. unfold pair_text. destruct (fst kv); [congruence|discriminate].
Qed.

Lemma fields_join_pairs ps :
  Forall (fun kv => plain_key (fst kv)) ps ->
  url.fields (join_pairs ps) = map pair_text ps.
Proof.
  induction 1 as [|kv ps Hkv Hps IH]; [reflexivity|].
  destruct ps as [|kv' ps].
  - simpl. apply fields_single;
      [apply pair_text_not_empty | apply pair_text_not_amp]; exact Hkv.
  - change (join_pairs (kv :: kv' :: ps))
      with (pair_text kv ++ String "&" (join_pairs (kv' :: ps))).
    rewrite fields_cons by (apply pair_text_not_amp; exact Hkv).
    rewrite IH. reflexivity.
Qed.

(** A well-formed pair adds its value under its key. *)
Lemma parseQuery_field_pair m err kv :
  plain_key (fst kv) ->
  url.parseQuery_field (m, err) (pair_text kv) = (add_pair m kv, err).
Proof.
  intros Hkv. pose proof Hkv as [Hne Hk].
  unfold url.parseQuery_field.
  rewrite Contains_absent.
  2:{ unfold pair_text. rewrite !all_append.
      rewrite (all_impl _ _ _ plain_not_semicolon Hk), escaped_not_semicolon.
      reflexivity. }
  destruct (String.eqb (pair_text kv) "") eqn:E.
  { apply String.eqb_eq in E. now apply pair_text_not_empty in E. }
  unfold pair_text at 1.
  change (fst kv ++ "=" ++ url.QueryEscape (snd kv))
    with (fst kv ++ String "=" (url.QueryEscape (snd kv))).
  rewrite Cut_first by (apply (all_impl _ _ _ plain_not_eq Hk)).
  rewrite (QueryUnescape_plain _ Hk), QueryUnescape_QueryEscape.
  reflexivity.
Qed.

Lemma ParseQuery_fold ps m err :
  Forall (fun kv => plain_key (fst kv)) ps ->
  fold_left url.parseQuery_field (map pair_text ps) (m, err)
  = (fold_left add_pair ps m, err).
Proof.
  intros H. revert m. induction H as [|kv ps Hkv Hps IH]; intros m; [reflexivity|].
  cbn [map fold_left]. rewrite parseQuery_field_pair by exact Hkv. apply IH.
Qed.

(** Pairs with plain keys, joined by "&", parse to the values they were
    written from. *)
Lemma ParseQuery_join_pairs ps :
  Forall (fun kv => plain_key (fst kv)) ps ->
  url.ParseQuery (join_pairs ps) = (fold_left add_pair ps [], None).
Proof.
  intros H. unfold url.ParseQuery.
  rewrite fields_join_pairs by exact H. apply ParseQuery_fold, H.
Qed.

Lemma join_pairs_query_bytes ps :
  Forall (fun kv => plain_key (fst kv)) ps ->
  strings.all query_byte (join_pairs ps) = true.
Proof.
  induction 1 as [|kv ps [_ Hk] Hps IH]; [reflexivity|].
  assert (Hkv : strings.all query_byte (pair_text kv) = true).
  { unfold pair_text. rewrite !all_append.
    rewrite (all_impl _ _ _ plain_query_byte Hk), QueryEscape_query_bytes.
    reflexivity. }
  destruct ps as [|kv' ps]; [exact Hkv|].
  change (join_pairs (kv :: kv' :: ps))
    with (pair_text kv ++ "&" ++ join_pairs (kv' :: ps)).
  rewrite !all_append, Hkv, IH. reflexivity.
Qed.

Lemma join_pairs_not_empty kv ps :
  plain_key (fst kv) -> join_pairs (kv :: ps) <> EmptyString.
Proof.
  intros [Hne _]. destruct ps; simpl; unfold pair_text;
    destruct (fst kv); (congruence || discriminate).
Qed.

(** ** The target of a list request *)

Lemma Parse_Monitors_query q :
  q <> EmptyString -> strings.all query_byte q = true ->
  url.Parse (Monitors ++ "?" ++ q) = Ok (list_url q).
Proof.
  intros Hne Hq.
  change (Monitors ++ "?" ++ q)
    with ("https://uptime.betterstack.com/api/v2/monitors?" ++ q).
  unfold url.Parse.
  rewrite Cut_absent.
  2:{ rewrite all_append. rewrite (all_impl _ _ _ query_byte_not_hash Hq). reflexivity. }
  unfold url.parse.
  replace (url.stringContainsCTLByte _) with false.
  2:{ unfold url.stringContainsCTLByte. rewrite all_append.
      rewrite (all_impl _ _ _ query_byte_not_ctl Hq). reflexivity. }
  cbv beta iota.
  change (String.eqb ("https://uptime.betterstack.com/api/v2/monitors?" ++ q) EmptyString)
    with false.
  change (String.eqb ("https://uptime.betterstack.com/api/v2/monitors?" ++ q) "*")
    with false.
  cbv beta iota. simpl andb. cbv iota.
  change (url.getScheme ("https://uptime.betterstack.com/api/v2/monitors?" ++ q))
    with ("https", "//uptime.betterstack.com/api/v2/monitors?" ++ q, @None error).
  cbv beta iota.
  rewrite HasSuffixByte_append by exact Hne.
  rewrite (HasSuffixByte_all query_byte _ _ Hq) by reflexivity.
  simpl andb. cbv iota.
  change (strings.Cut ("//uptime.betterstack.com/api/v2/monitors?" ++ q) "?")
    with ("//uptime.betterstack.com/api/v2/monitors", q, true).
  reflexivity.
Qed.

(** ** The encoding of the parameters of a list call *)

Lemma write_pair_first k v :
  plain_key k -> url.write_pair (url.QueryEscape k) "" v = pair_text (k, v).
Proof.
  intros [_ Hk]. unfold url.write_pair, pair_text.
  rewrite (QueryEscape_plain _ Hk). reflexivity.
Qed.

Lemma write_pair_next k v buf :
  buf <> EmptyString -> plain_key k ->
  url.write_pair (url.QueryEscape k) buf v = buf ++ "&" ++ pair_text (k, v).
Proof.
  intros Hb [_ Hk]. unfold url.write_pair, pair_text.
  rewrite (QueryEscape_plain _ Hk).
  destruct (String.eqb buf "") eqn:E.
  - apply String.eqb_eq in E. congruence.
  - apply append_assoc3.
Qed.

Lemma plain_key_literal k :
  strings.all plain k = true -> negb (String.eqb k "") = true -> plain_key k.
Proof.
  intros H1 H2. split; [|exact H1].
  intros ->. discriminate.
Qed.

Ltac plain_literal := apply plain_key_literal; reflexivity.

Lemma Encode_two v1 v2 :
  url.Encode [("per_page", [v2]); ("page", [v1])]
  = join_pairs [("page", v1); ("per_page", v2)].
Proof.
  unfold url.Encode, url.sorted_keys.
  cbn -[url.QueryEscape String.append].
  rewrite (write_pair_first "page" v1) by plain_literal.
  rewrite write_pair_next by (apply pair_text_not_empty || plain_literal; plain_literal).
  reflexivity.
Qed.

Lemma Encode_url v1 v2 v3 :
  url.Encode [("per_page", [v2]); ("page", [v1]); ("url", [v3])]
  = join_pairs [("page", v1); ("per_page", v2); ("url", v3)].
Proof.
  unfold url.Encode, url.sorted_keys.
  cbn -[url.QueryEscape String.append].
  rewrite (write_pair_first "page" v1) by plain_literal.
  rewrite (@write_pair_next "per_page" v2 (pair_text ("page", v1)))
    by (apply pair_text_not_empty || plain_literal; plain_literal).
  rewrite write_pair_next; [| |plain_literal].
  - rewrite append_assoc3. reflexivity.
  - intros E. destruct (pair_text ("page", v1)) eqn:E1; [|discriminate].
    revert E1. apply pair_text_not_empty. plain_literal.
Qed.

Lemma Encode_name v1 v2 v3 :
  url.Encode [("per_page", [v2]); ("page", [v1]); ("pronounceable_name", [v3])]
  = join_pairs [("page", v1); ("per_page", v2); ("pronounceable_name", v3)].
Proof.
  unfold url.Encode, url.sorted_keys.
  cbn -[url.QueryEscape String.append].
  rewrite (write_pair_first "page" v1) by plain_literal.
  rewrite (@write_pair_next "per_page" v2 (pair_text ("page", v1)))
    by (apply pair_text_not_empty || plain_literal; plain_literal).
  rewrite write_pair_next; [| |plain_literal].
  - rewrite append_assoc3. reflexivity.
  - intros E. destruct (pair_text ("page", v1)) eqn:E1; [|discriminate].
    revert E1. apply pair_text_not_empty. plain_literal.
Qed.

Lemma clamp_max page : (if page <? 1 then 1 else page) = Z.max 1 page.
Proof. destruct (Z.ltb_spec page 1); lia. Qed.

Lemma NotEmpty_string_true s : funk.NotEmpty_string s = true <-> s <> EmptyString.
Proof.
  unfold funk.NotEmpty_string, funk.IsEmpty_string.
  rewrite negb_true_iff. split.
  - intros E ->. discriminate.
  - intros H. destruct (String.eqb_spec s ""); congruence.
Qed.

(** The outcome of lines 54 to 71: a validation failure, for a filter of
    an unrecognized kind with a value; otherwise parameters whose encoding
    is the pairs of [list_pairs], all with plain keys. *)
Lemma list_params_cases page ft fv :
  (funk.NotEmpty_string ft && funk.NotEmpty_string fv = true
   /\ recognized ft = false
   /\ list_params page ft fv
      = inr (fmt_Errorf "invalid filter type: %s" [arg_string ft]))
  \/ ((funk.NotEmpty_string ft && funk.NotEmpty_string fv = true -> recognized ft = true)
      /\ exists params,
          list_params page ft fv = inl params
          /\ url.Encode params = join_pairs (list_pairs page ft fv)
          /\ Forall (fun kv => plain_key (fst kv)) (list_pairs page ft fv)).
Proof.
  unfold list_params, list_pairs, recognized, page_text.
  rewrite clamp_max.
  destruct (funk.NotEmpty_string ft && funk.NotEmpty_string fv) eqn:E.
  - destruct (String.eqb_spec ft "url") as [->|Hu].
    + right. split; [reflexivity|]. eexists. split; [reflexivity|]. split.
      * apply Encode_url.
      * repeat constructor; plain_literal.
    + destruct (String.eqb_spec ft "pronounceable_name") as [->|Hn].
      * right. split; [reflexivity|]. eexists. split; [reflexivity|]. split.
        -- apply Encode_name.
        -- repeat constructor; plain_literal.
      * left. repeat split; reflexivity.
  - right. split; [discriminate|]. eexists. split; [reflexivity|]. split.
    + apply Encode_two.
    + repeat constructor; plain_literal.
Qed.

(** ** Parsing numerals *)

Lemma ParseUint_loop_nonneg s : forall n v,
  0 <= n -> strconv.ParseUint_loop n s = (v, None) -> 0 <= v.
Proof.
  induction s as [|c s IH]; simpl; intros n v Hn H.
  - injection H as <-. exact Hn.
  - destruct (is_digit c) eqn:Hd; [|discriminate].
    destruct (_ <=? n); [discriminate|].
    destruct (_ <? _); [discriminate|].
    apply IH in H; [exact H|].
    unfold is_digit, between, code in Hd. apply andb_true_iff in Hd as [Hd _].
    apply N.leb_le in Hd. change (N_of_ascii "0") with 48%N in Hd.
    unfold code. lia.
Qed.

Lemma Atoi_range s v :
  strconv.Atoi s = (v, None) -> - 2 ^ 63 <= v < 2 ^ 63.
Proof.
  unfold strconv.Atoi. destruct s as [|c s]; [discriminate|].
  cbv zeta.
  destruct (strconv.ParseUint _) as [un [e|]] eqn:E.
  - destruct (strconv.is_ErrRange e); destruct (Ascii.eqb c "-"); discriminate.
  - assert (Hun : 0 <= un).
    { unfold strconv.ParseUint in E.
      destruct (if _ : bool then s else String c s); [discriminate|].
      eapply ParseUint_loop_nonneg; [|exact E]. lia. }
    destruct (Ascii.eqb c "-"); cbn [negb andb].
    + destruct (Z.ltb_spec (2 ^ 63) un) as [Hlt|Hge]; [discriminate|].
      intros Hv. injection Hv as <-. lia.
    + destruct (Z.leb_spec (2 ^ 63) un) as [Hle|Hgt]; [discriminate|].
      intros Hv. injection Hv as <-. lia.
Qed.

Lemma GetLastPage_range p n :
  GetLastPage p = (n, None) -> - 2 ^ 63 <= n < 2 ^ 63.
Proof.
  unfold GetLastPage.
  destruct (url.Parse _); [|discriminate].
  destruct (funk.IsEmpty_string _); [discriminate|].
  destruct (strconv.Atoi _) as [v [e|]] eqn:E; [discriminate|].
  intros H. injection H as <-. apply Atoi_range with (1 := E).
Qed.

(** ** The single-page list call *)

Section ListFacts.

Context {env : Env}.

Lemma append_monitors_map acc data :
  append_monitors acc data = (acc ++ map with_id data)%list.
Proof.
  unfold append_monitors. revert acc.
  induction data as [|mon data IH]; intros acc; simpl.
  - now rewrite app_nil_r.
  - rewrite IH. unfold append_monitor, with_id. simpl.
    now rewrite <- app_assoc.
Qed.

Lemma items_of_cons (r : MonitorsResponse) rs :
  items_of (r :: rs) = (ListWrapper.Data r ++ items_of rs)%list.
Proof. reflexivity. Qed.

(** With valid parameters the request is built, so that the call is one
    exchange followed by [list_receive]; and net/url reads the pairs of
    [list_pairs] off the request. *)
Lemma list_send_exchange c page ft fv params w :
  list_params page ft fv = inl params ->
  list_send c params w
  = (list_receive (fst (RoundTrip (list_request c params) (remote w))),
     mkWorld (snd (RoundTrip (list_request c params) (remote w)))
             (sent w ++ [list_request c params])%list)
  /\ query_of (list_request c params) = fold_left add_pair (list_pairs page ft fv) [].
Proof.
  intros Hp.
  destruct (list_params_cases page ft fv) as [(_ & _ & E)|(_ & params' & E & Henc & Hkeys)];
    [congruence|].
  rewrite Hp in E. injection E as <-.
  assert (Hparse : url.Parse (Monitors ++ "?" ++ url.Encode params)
                   = Ok (list_url (url.Encode params))).
  { apply Parse_Monitors_query; rewrite Henc.
    - unfold list_pairs. apply join_pairs_not_empty. plain_literal.
    - apply join_pairs_query_bytes, Hkeys. }
  split.
  - unfold list_send, http.NewRequest. rewrite Hparse.
    unfold bind, Do, ret, list_request, http.set_Header. simpl.
    destruct (RoundTrip _ _) as [r rem']. reflexivity.
  - unfold query_of, list_request. cbn [http.URL]. rewrite Hparse.
    unfold url.Query, list_url. cbn [url.RawQuery]. rewrite Henc.
    rewrite ParseQuery_join_pairs by exact Hkeys. reflexivity.
Qed.

(** The target of the unfiltered request for page [i]. *)
Lemma page_request_target c i :
  http.URL (page_request c i)
  = Monitors ++ "?page=" ++ fmt.Sprintf_d i ++ "&per_page=250".
Proof.
  unfold page_request, page_params, list_request. cbn [http.URL].
  rewrite Encode_two. cbn [join_pairs]. unfold pair_text. cbn [fst snd].
  rewrite (QueryEscape_plain _ (Sprintf_d_plain i)).
  rewrite !append_assoc3. reflexivity.
Qed.

Lemma list_params_unfiltered page :
  list_params page Blanc Blanc = inl (page_params (Z.max 1 page)).
Proof. unfold list_params. rewrite clamp_max. reflexivity. Qed.

(** An unfiltered call is one exchange for the page request. *)
Lemma ListMonitors_page c i w :
  1 <= i ->
  ListMonitors c i Blanc Blanc w
  = (list_receive (fst (RoundTrip (page_request c i) (remote w))),
     mkWorld (snd (RoundTrip (page_request c i) (remote w)))
             (sent w ++ [page_request c i])%list).
Proof.
  intros Hi. unfold ListMonitors.
  pose proof (list_params_unfiltered i) as Hp.
  replace (Z.max 1 i) with i in Hp by lia.
  rewrite Hp. apply (proj1 (list_send_exchange c i Blanc Blanc _ w Hp)).
Qed.

Lemma ListMonitors_served c i w r rem' :
  1 <= i -> serves_page c i (remote w) r rem' ->
  ListMonitors c i Blanc Blanc w
  = ((r, None), mkWorld rem' (sent w ++ [page_request c i])%list).
Proof.
  intros Hi (resp & Hrt & Hdec & Hemp).
  rewrite ListMonitors_page by exact Hi. rewrite Hrt. simpl.
  unfold list_receive. rewrite Hdec.
  unfold funk.NotEmpty. rewrite Hemp. reflexivity.
Qed.

(** ** The loop of the enumerator *)

Lemma incr_succ i : - 2 ^ 63 - 1 <= i < 2 ^ 63 - 1 -> incr i = i + 1.
Proof.
  intros H. unfold incr.
  rewrite Z.mod_small by lia. lia.
Qed.

(** Pages listed without failure take one unit of fuel each and leave
    their items, in order, behind the items gathered before. *)
Lemma loop_pages_listed c lastPage rs : forall i acc w w' fuel,
  pages_listed c i rs w w' ->
  1 <= i -> i + Z.of_nat (List.length rs) - 1 <= lastPage ->
  i + Z.of_nat (List.length rs) < 2 ^ 63 ->
  ListAllMonitors_loop (List.length rs + fuel) c i lastPage acc w
  = ListAllMonitors_loop fuel c (i + Z.of_nat (List.length rs)) lastPage
      (acc ++ map with_id (items_of rs))%list w'.
Proof.
  induction rs as [|r rs IH]; intros i acc w w' fuel Hl Hi Hlast Hmax.
  - simpl in Hl. subst w'. simpl. rewrite Z.add_0_r, app_nil_r. reflexivity.
  - destruct Hl as (w1 & H1 & Hl).
    cbn [List.length] in *.
    change (S (List.length rs) + fuel)%nat with (S (List.length rs + fuel)).
    cbn [ListAllMonitors_loop].
    replace (i <=? lastPage) with true by (symmetry; apply Z.leb_le; lia).
    rewrite H1. rewrite incr_succ by lia.
    rewrite (IH (i + 1) _ w1 w' fuel Hl) by lia.
    rewrite append_monitors_map, items_of_cons, map_app, app_assoc.
    f_equal. lia.
Qed.

End ListFacts.

(** * The claims *)

Section Enumerator.

Context {env : Env}.

(** C1.  When the transport serves a collection as three pages of two
    items each (the "last" link of page 1 naming page 3), the enumerator
    returns the six items as one list, those of page 1 first in the order
    they came in, then those of page 2, then those of page 3, each with
    the identifier of its wrapper; and it sends exactly three requests,
    for pages 1, 2 and 3 in this order, one after the other. *)
Theorem ListAllMonitors_three_pages
        (c : BetterstackClient) (w : World) (r1 r2 r3 : MonitorsResponse)
        (rem1 rem2 rem3 : Remote) (fuel : nat) :
  serves_page c 1 (remote w) r1 rem1 ->
  serves_page c 2 rem1 r2 rem2 ->
  serves_page c 3 rem2 r3 rem3 ->
  GetLastPage (ListWrapper.Pagination r1) = (3, None) ->
  List.length (ListWrapper.Data r1) = 2%nat ->
  List.length (ListWrapper.Data r2) = 2%nat ->
  List.length (ListWrapper.Data r3) = 2%nat ->
  (2 <= fuel)%nat ->
  let items :=
    map with_id (ListWrapper.Data r1 ++ ListWrapper.Data r2 ++ ListWrapper.Data r3)%list in
  let requests := [page_request c 1; page_request c 2; page_request c 3] in
  ListAllMonitors fuel c w = Some ((items, None), mkWorld rem3 (sent w ++ requests)%list)
  /\ List.length items = 6%nat
  /\ map http.URL requests
     = ["https://uptime.betterstack.com/api/v2/monitors?page=1&per_page=250";
        "https://uptime.betterstack.com/api/v2/monitors?page=2&per_page=250";
        "https://uptime.betterstack.com/api/v2/monitors?page=3&per_page=250"].
Proof.
  intros S1 S2 S3 Hlast L1 L2 L3 Hfuel items requests.
  split; [|split; [|reflexivity]].
  - destruct fuel as [|[|fuel]]; try lia.
    unfold ListAllMonitors.
    rewrite (ListMonitors_served c 1 w r1 rem1) by (lia || exact S1).
    rewrite Hlast.
    change (1 =? 3) with false. cbv iota. change (incr 1) with 2.
    set (w1 := mkWorld rem1 (sent w ++ [page_request c 1])%list).
    set (w2 := mkWorld rem2 (sent w1 ++ [page_request c 2])%list).
    set (w3 := mkWorld rem3 (sent w2 ++ [page_request c 3])%list).
    assert (Hl : pages_listed c 2 [r2; r3] w1 w3).
    { exists w2. split.
      - apply ListMonitors_served; [lia|exact S2].
      - exists w3. split; [|reflexivity].
        apply ListMonitors_served; [lia|exact S3]. }
    change (S (S fuel)) with (List.length [r2; r3] + fuel)%nat.
    rewrite (loop_pages_listed c 3 [r2; r3] 2 _ w1 w3 fuel Hl)
      by (cbn [List.length]; lia).
    cbn [List.length]. change (2 + Z.of_nat 2) with 4.
    destruct fuel; cbn [ListAllMonitors_loop]; change (4 <=? 3) with false; cbv iota.
    all: rewrite append_monitors_map; cbn [app];
      unfold items, requests, items_of, w3, w2, w1; cbn [map List.concat sent];
      rewrite app_nil_r, <- map_app, <- !app_assoc; reflexivity.
  - unfold items. rewrite length_map, !length_app. lia.
Qed.

(** C2, as the code has it.  When the "last" link of page 1 is the empty
    string, [GetLastPage] fails with the message that the 'page' parameter
    was not found, and the enumerator, having sent the one request for page
    1, returns this failure with an empty result. *)
Theorem ListAllMonitors_empty_last_link
        (c : BetterstackClient) (w w1 : World) (r1 : MonitorsResponse) (fuel : nat) :
  ListMonitors c 1 Blanc Blanc w = ((r1, None), w1) ->
  Pagination.Last (ListWrapper.Pagination r1) = "" ->
  let failure := fmt_Errorf "'page' parameter not found in URL" [] in
  GetLastPage (ListWrapper.Pagination r1) = (0, Some failure)
  /\ ListAllMonitors fuel c w = Some (([], Some failure), w1).
Proof.
  intros H1 Hlast failure.
  assert (Hg : GetLastPage (ListWrapper.Pagination r1) = (0, Some failure)).
  { unfold GetLastPage. rewrite Hlast. reflexivity. }
  split; [exact Hg|].
  unfold ListAllMonitors. rewrite H1, Hg. reflexivity.
Qed.

(** C3.  If the fetch of page 1 fails, the enumerator returns that failure
    with an empty result.  If the "last" link of page 1 names page n > 1,
    pages 1 to k-1 are fetched without failure and the fetch of page k
    fails, for some k from 2 to n, then the enumerator stops there and
    returns the items of pages 1 to k-1, in order, together with the
    failure of page k. *)
Theorem ListAllMonitors_partial_failure (c : BetterstackClient) (w : World) :
  (forall r e w1 fuel,
      ListMonitors c 1 Blanc Blanc w = ((r, Some e), w1) ->
      ListAllMonitors fuel c w = Some (([], Some e), w1))
  /\ (forall n k r1 rs wk rk e w' fuel,
         1 < n -> 2 <= k <= n ->
         pages_listed c 1 (r1 :: rs) w wk ->
         Z.of_nat (List.length (r1 :: rs)) = k - 1 ->
         GetLastPage (ListWrapper.Pagination r1) = (n, None) ->
         ListMonitors c k Blanc Blanc wk = ((rk, Some e), w') ->
         (Z.to_nat (k - 1) <= fuel)%nat ->
         ListAllMonitors fuel c w
         = Some ((map with_id (items_of (r1 :: rs)), Some e), w')).
Proof.
  split.
  - intros r e w1 fuel H1. unfold ListAllMonitors. rewrite H1. reflexivity.
  - intros n k r1 rs wk rk e w' fuel Hn Hk (w1 & H1 & Hl) Hlen Hlast Hfail Hfuel.
    pose proof (GetLastPage_range _ _ Hlast) as Hrange.
    cbn [List.length] in Hlen.
    unfold ListAllMonitors. rewrite H1, Hlast.
    replace (1 =? n) with false by (symmetry; apply Z.eqb_neq; lia).
    change (incr 1) with 2. change (1 + 1) with 2 in Hl.
    assert (Hf : exists fuel', fuel = (List.length rs + S fuel')%nat).
    { exists (fuel - List.length rs - 1)%nat. lia. }
    destruct Hf as [fuel' ->].
    rewrite (loop_pages_listed c n rs 2 _ w1 wk (S fuel') Hl) by lia.
    replace (2 + Z.of_nat (List.length rs)) with k by lia.
    cbn [ListAllMonitors_loop].
    replace (k <=? n) with true by (symmetry; apply Z.leb_le; lia).
    rewrite Hfail. rewrite append_monitors_map, items_of_cons, map_app.
    reflexivity.
Qed.

(** C4.  [GetLastPage] returns the integer value of the [page] parameter
    of the "last" link: 7 for the link of the list endpoint ending in
    [monitors?page=7], and for every link that parses with the raw query
    [page=7]; and for a link that parses but has no [page] parameter, or
    one whose value is not an integer, it returns a failure, not a page
    count. *)
Theorem GetLastPage_page_parameter :
  GetLastPage
    (Pagination.mk "" "https://uptime.betterstack.com/api/v2/monitors?page=7" "" "")
  = (7, None)
  /\ (forall p u,
         url.Parse (Pagination.Last p) = Ok u ->
         url.RawQuery u = "page=7" ->
         GetLastPage p = (7, None))
  /\ (forall p u n,
         url.Parse (Pagination.Last p) = Ok u ->
         strconv.Atoi (url.Get (url.Query u) "page") = (n, None) ->
         GetLastPage p = (n, None))
  /\ (forall p u,
         url.Parse (Pagination.Last p) = Ok u ->
         url.lookup (url.Query u) "page" = []
         \/ snd (strconv.Atoi (url.Get (url.Query u) "page")) <> None ->
         exists e, GetLastPage p = (0, Some e)).
Proof.
  split; [reflexivity|]. split; [|split].
  - intros p u Hp Hq. unfold GetLastPage, url.Query. rewrite Hp, Hq. reflexivity.
  - intros p u n Hp Ha. unfold GetLastPage. rewrite Hp.
    destruct (funk.IsEmpty_string _) eqn:E.
    + apply String.eqb_eq in E. rewrite E in Ha. discriminate.
    + rewrite Ha. reflexivity.
  - intros p u Hp H. unfold GetLastPage. rewrite Hp.
    destruct (funk.IsEmpty_string _) eqn:E; [eexists; reflexivity|].
    destruct H as [H|H].
    + unfold url.Get in E. rewrite H in E. discriminate.
    + destruct (strconv.Atoi _) as [v [e|]]; [eexists; reflexivity|].
      now contradiction H.
Qed.

End Enumerator.

(** ** The single-resource operations *)

Section Operations.

Context {env : Env}.

Lemma Parse_Monitors :
  url.Parse Monitors
  = Ok (url.mkURL "https" "" "uptime.betterstack.com" "/api/v2/monitors" false "" "").
Proof. reflexivity. Qed.

(** The three outcomes of lines 180 to 191. *)
Lemma decode_one_failure format body r derr :
  Decode_one body = (r, derr) ->
  funk.NotEmpty (ResponseWrapper.Errors r) = true ->
  exists e, decode_one format body = (r, Some e).
Proof.
  intros Hd Hn. unfold decode_one. rewrite Hd.
  destruct derr; [eexists; reflexivity|]. rewrite Hn. eexists; reflexivity.
Qed.

Lemma decode_one_reported format body r :
  Decode_one body = (r, None) ->
  funk.NotEmpty (ResponseWrapper.Errors r) = true ->
  decode_one format body
  = (r, Some (fmt_Errorf format [arg_any (ResponseWrapper.Errors r)])).
Proof. intros Hd Hn. unfold decode_one. rewrite Hd, Hn. reflexivity. Qed.

Lemma decode_one_clean format body r :
  Decode_one body = (r, None) ->
  funk.IsEmpty (ResponseWrapper.Errors r) = true ->
  decode_one format body = (copy_ID r, None).
Proof.
  intros Hd He. unfold decode_one, funk.NotEmpty. rewrite Hd, He. reflexivity.
Qed.

Lemma decode_one_success format body r :
  decode_one format body = (r, None) ->
  exists r0, Decode_one body = (r0, None) /\ r = copy_ID r0.
Proof.
  unfold decode_one. destruct (Decode_one body) as [r0 [e|]]; [discriminate|].
  destruct (funk.NotEmpty _); [discriminate|].
  intros H. injection H as <-. exists r0. split; reflexivity.
Qed.

(** Each operation, once its request exists, is one exchange. *)
Lemma ListMonitors_listed c page ft fv w resp w' :
  listed c page ft fv w resp w' ->
  ListMonitors c page ft fv w = (list_receive (Ok resp), w').
Proof.
  intros (params & Hp & Hdo). unfold ListMonitors. rewrite Hp.
  rewrite (proj1 (list_send_exchange c page ft fv params w Hp)).
  unfold Do in Hdo. destruct (RoundTrip _ _) as [o rem'].
  injection Hdo as -> <-. reflexivity.
Qed.

Lemma GetMonitor_got c id w resp w' :
  got c id w resp w' ->
  GetMonitor c id w = (decode_one "failed to get monitor: %v" (http.RespBody resp), w').
Proof.
  intros (u & Hu & Hdo). unfold GetMonitor, http.NewRequest. rewrite Hu.
  change (http.set_Header _ _) with (get_request c id).
  unfold bind. rewrite Hdo. reflexivity.
Qed.

Lemma CreateMonitor_created c monitor w resp w' :
  created c monitor w resp w' ->
  CreateMonitor c monitor w
  = (if negb (http.StatusCode resp =? http.StatusCreated)
     then (ResponseWrapper.zero Monitor.zero,
           Some (fmt_Errorf request_execution_format [arg_error None]))
     else decode_one "failed to list monitors: %v" (http.RespBody resp), w').
Proof.
  intros (body & Hm & Hdo). unfold CreateMonitor, http.NewRequest.
  rewrite Hm, Parse_Monitors.
  change (http.set_Header _ _) with (create_request c body).
  unfold bind. rewrite Hdo.
  destruct (negb _); reflexivity.
Qed.

Lemma UpdateMonitor_updated c id monitor w resp w' :
  updated c id monitor w resp w' ->
  UpdateMonitor c id monitor w
  = (if negb (http.StatusCode resp =? http.StatusOK)
     then (ResponseWrapper.zero Monitor.zero,
           Some (fmt_Errorf request_execution_format [arg_string (http.Status resp)]))
     else decode_one "failed to update monitor: %v" (http.RespBody resp), w').
Proof.
  intros (body & u & Hm & Hu & Hdo). unfold UpdateMonitor, http.NewRequest.
  rewrite Hm, Hu.
  change (http.set_Header _ _) with (update_request c id body).
  unfold bind. rewrite Hdo.
  destruct (negb _); reflexivity.
Qed.

Lemma DeleteMonitor_deleted c id w resp w' :
  deleted c id w resp w' ->
  DeleteMonitor c id w
  = (if negb (http.StatusCode resp =? http.StatusNoContent)
     then Some (fmt_Errorf request_execution_format [arg_error None])
     else None, w').
Proof.
  intros (u & Hu & Hdo). unfold DeleteMonitor, http.NewRequest. rewrite Hu.
  change (http.set_Header _ _) with (delete_request c id).
  unfold bind. rewrite Hdo.
  destruct (negb _); reflexivity.
Qed.

Lemma status_differs code expected : code <> expected -> negb (code =? expected) = true.
Proof. intros H. apply negb_true_iff, Z.eqb_neq, H. Qed.

(** C5, as the code has it.  A create call whose response has a status
    other than 201 returns a failure and the zero result; the body is not
    decoded, so this holds also when it would decode cleanly.  The failure
    is built from the format of a failed request execution, the one a
    transport error gets.  Update does the same for a status other than
    200, delete for a status other than 204; with the expected status the
    three operations go on to the body, or, for delete, succeed. *)
Theorem status_mismatch_is_reported
        (c : BetterstackClient) (w w' : World) (resp : http.Response Payload) :
  (forall monitor,
      created c monitor w resp w' ->
      (http.StatusCode resp <> 201 ->
       exists operand,
         CreateMonitor c monitor w
         = ((ResponseWrapper.zero Monitor.zero,
             Some (fmt_Errorf request_execution_format [operand])), w'))
      /\ (http.StatusCode resp = 201 ->
          CreateMonitor c monitor w
          = (decode_one "failed to list monitors: %v" (http.RespBody resp), w')))
  /\ (forall id monitor,
         updated c id monitor w resp w' ->
         (http.StatusCode resp <> 200 ->
          exists operand,
            UpdateMonitor c id monitor w
            = ((ResponseWrapper.zero Monitor.zero,
                Some (fmt_Errorf request_execution_format [operand])), w'))
         /\ (http.StatusCode resp = 200 ->
             UpdateMonitor c id monitor w
             = (decode_one "failed to update monitor: %v" (http.RespBody resp), w')))
  /\ (forall id,
         deleted c id w resp w' ->
         (http.StatusCode resp <> 204 ->
          exists operand,
            DeleteMonitor c id w
            = (Some (fmt_Errorf request_execution_format [operand]), w'))
         /\ (http.StatusCode resp = 204 -> DeleteMonitor c id w = (None, w')))
  /\ (forall monitor body e,
         Marshal monitor = Ok body ->
         Do (create_request c body) w = (Err e, w') ->
         CreateMonitor c monitor w
         = ((ResponseWrapper.zero Monitor.zero,
             Some (fmt_Errorf request_execution_format [arg_error (Some e)])), w')).
Proof.
  repeat split.
  - intros Hs. rewrite (CreateMonitor_created _ _ _ _ _ H).
    rewrite (status_differs _ http.StatusCreated Hs). eexists; reflexivity.
  - intros Hs. rewrite (CreateMonitor_created _ _ _ _ _ H), Hs. reflexivity.
  - intros Hs. rewrite (UpdateMonitor_updated _ _ _ _ _ _ H).
    rewrite (status_differs _ http.StatusOK Hs). eexists; reflexivity.
  - intros Hs. rewrite (UpdateMonitor_updated _ _ _ _ _ _ H), Hs. reflexivity.
  - intros Hs. rewrite (DeleteMonitor_deleted _ _ _ _ _ H).
    rewrite (status_differs _ http.StatusNoContent Hs). eexists; reflexivity.
  - intros Hs. rewrite (DeleteMonitor_deleted _ _ _ _ _ H), Hs. reflexivity.
  - intros monitor body e Hm Hdo. unfold CreateMonitor, http.NewRequest.
    rewrite Hm, Parse_Monitors.
    change (http.set_Header _ _) with (create_request c body).
    unfold bind. rewrite Hdo. reflexivity.
Qed.


(** The three outcomes of lines 87 to 96. *)
Lemma list_receive_failure resp r derr :
  Decode_list (http.RespBody resp) = (r, derr) ->
  funk.NotEmpty (ListWrapper.Errors r) = true ->
  exists e, list_receive (Ok resp) = (r, Some e).
Proof.
  intros Hd Hn. unfold list_receive. rewrite Hd.
  destruct derr; [eexists; reflexivity|]. rewrite Hn. eexists; reflexivity.
Qed.

Lemma list_receive_reported resp r :
  Decode_list (http.RespBody resp) = (r, None) ->
  funk.NotEmpty (ListWrapper.Errors r) = true ->
  list_receive (Ok resp)
  = (r, Some (fmt_Errorf "failed to list monitors: %v" [arg_any (ListWrapper.Errors r)])).
Proof. intros Hd Hn. unfold list_receive. rewrite Hd, Hn. reflexivity. Qed.

Lemma list_receive_clean resp r :
  Decode_list (http.RespBody resp) = (r, None) ->
  funk.IsEmpty (ListWrapper.Errors r) = true ->
  list_receive (Ok resp) = (r, None).
Proof.
  intros Hd He. unfold list_receive, funk.NotEmpty. rewrite Hd, He. reflexivity.
Qed.

(** C7.  Whatever the status of the response and whatever the decoder
    says, a list, get, create or update call whose decoded response has a
    non-empty [errors] field returns a failure; when status and decoding
    are as expected the failure reports that field and the envelope is
    returned as decoded.  When the field is absent (nil) or empty, the check
    lets the call succeed: the envelope is returned without failure, with
    the identifier copied for the single-resource calls. *)
Theorem errors_field_decides
        (c : BetterstackClient) (w w' : World) (resp : http.Response Payload) :
  (forall page ft fv r derr,
      listed c page ft fv w resp w' ->
      Decode_list (http.RespBody resp) = (r, derr) ->
      (funk.NotEmpty (ListWrapper.Errors r) = true ->
       exists e, ListMonitors c page ft fv w = ((r, Some e), w'))
      /\ (derr = None -> funk.NotEmpty (ListWrapper.Errors r) = true ->
          ListMonitors c page ft fv w
          = ((r, Some (fmt_Errorf "failed to list monitors: %v"
                                  [arg_any (ListWrapper.Errors r)])), w'))
      /\ (derr = None -> funk.IsEmpty (ListWrapper.Errors r) = true ->
          ListMonitors c page ft fv w = ((r, None), w')))
  /\ (forall id r derr,
         got c id w resp w' ->
         Decode_one (http.RespBody resp) = (r, derr) ->
         (funk.NotEmpty (ResponseWrapper.Errors r) = true ->
          exists e, GetMonitor c id w = ((r, Some e), w'))
         /\ (derr = None -> funk.NotEmpty (ResponseWrapper.Errors r) = true ->
             GetMonitor c id w
             = ((r, Some (fmt_Errorf "failed to get monitor: %v"
                                     [arg_any (ResponseWrapper.Errors r)])), w'))
         /\ (derr = None -> funk.IsEmpty (ResponseWrapper.Errors r) = true ->
             GetMonitor c id w = ((copy_ID r, None), w')))
  /\ (forall monitor r derr,
         created c monitor w resp w' ->
         Decode_one (http.RespBody resp) = (r, derr) ->
         (funk.NotEmpty (ResponseWrapper.Errors r) = true ->
          exists r' e, CreateMonitor c monitor w = ((r', Some e), w'))
         /\ (derr = None -> http.StatusCode resp = 201 ->
             funk.NotEmpty (ResponseWrapper.Errors r) = true ->
             CreateMonitor c monitor w
             = ((r, Some (fmt_Errorf "failed to list monitors: %v"
                                     [arg_any (ResponseWrapper.Errors r)])), w'))
         /\ (derr = None -> http.StatusCode resp = 201 ->
             funk.IsEmpty (ResponseWrapper.Errors r) = true ->
             CreateMonitor c monitor w = ((copy_ID r, None), w')))
  /\ (forall id monitor r derr,
         updated c id monitor w resp w' ->
         Decode_one (http.RespBody resp) = (r, derr) ->
         (funk.NotEmpty (ResponseWrapper.Errors r) = true ->
          exists r' e, UpdateMonitor c id monitor w = ((r', Some e), w'))
         /\ (derr = None -> http.StatusCode resp = 200 ->
             funk.NotEmpty (ResponseWrapper.Errors r) = true ->
             UpdateMonitor c id monitor w
             = ((r, Some (fmt_Errorf "failed to update monitor: %v"
                                     [arg_any (ResponseWrapper.Errors r)])), w'))
         /\ (derr = None -> http.StatusCode resp = 200 ->
             funk.IsEmpty (ResponseWrapper.Errors r) = true ->
             UpdateMonitor c id monitor w = ((copy_ID r, None), w')))
  /\ funk.IsEmpty any_nil = true
  /\ funk.IsEmpty (any_string "") = true
  /\ funk.IsEmpty (any_slice []) = true
  /\ funk.IsEmpty (any_map []) = true.
Proof.
  split; [|split; [|split; [|split; [|repeat split]]]].
  - intros page ft fv r derr Hx Hd.
    rewrite (ListMonitors_listed _ _ _ _ _ _ _ Hx). repeat split.
    + intros Hn. destruct (list_receive_failure _ _ _ Hd Hn) as [e ->].
      eexists; reflexivity.
    + intros -> Hn. now rewrite (list_receive_reported _ _ Hd Hn).
    + intros -> He. now rewrite (list_receive_clean _ _ Hd He).
  - intros id r derr Hx Hd.
    rewrite (GetMonitor_got _ _ _ _ _ Hx). repeat split.
    + intros Hn. destruct (decode_one_failure "failed to get monitor: %v" _ _ _ Hd Hn)
        as [e ->]. eexists; reflexivity.
    + intros -> Hn. now rewrite (decode_one_reported _ _ _ Hd Hn).
    + intros -> He. now rewrite (decode_one_clean _ _ _ Hd He).
  - intros monitor r derr Hx Hd.
    rewrite (CreateMonitor_created _ _ _ _ _ Hx). repeat split.
    + intros Hn. destruct (negb _); [do 2 eexists; reflexivity|].
      destruct (decode_one_failure "failed to list monitors: %v" _ _ _ Hd Hn)
        as [e ->]. do 2 eexists; reflexivity.
    + intros -> -> Hn. now rewrite (decode_one_reported _ _ _ Hd Hn).
    + intros -> -> He. now rewrite (decode_one_clean _ _ _ Hd He).
  - intros id monitor r derr Hx Hd.
    rewrite (UpdateMonitor_updated _ _ _ _ _ _ Hx). repeat split.
    + intros Hn. destruct (negb _); [do 2 eexists; reflexivity|].
      destruct (decode_one_failure "failed to update monitor: %v" _ _ _ Hd Hn)
        as [e ->]. do 2 eexists; reflexivity.
    + intros -> -> Hn. now rewrite (decode_one_reported _ _ _ Hd Hn).
    + intros -> -> He. now rewrite (decode_one_clean _ _ _ Hd He).
Qed.

(** A loop that ends without failure has gathered the items of the
    envelopes it received. *)
Lemma loop_success c lastPage fuel : forall i acc w ms w',
  ListAllMonitors_loop fuel c i lastPage acc w = Some ((ms, None), w') ->
  exists rs, received c w rs w' /\ ms = (acc ++ map with_id (items_of rs))%list.
Proof.
  induction fuel as [|fuel IH]; intros i acc w ms w'; cbn [ListAllMonitors_loop].
  - destruct (i <=? lastPage); [discriminate|].
    intros H. injection H as <- <-. exists []. split; [constructor|].
    now rewrite app_nil_r.
  - destruct (i <=? lastPage).
    + destruct (ListMonitors c i Blanc Blanc w) as [[r [e|]] w1] eqn:E; [discriminate|].
      intros H. apply IH in H as (rs & Hrs & ->).
      exists (r :: rs). split.
      * econstructor; eassumption.
      * now rewrite append_monitors_map, items_of_cons, map_app, app_assoc.
    + intros H. injection H as <- <-. exists []. split; [constructor|].
      now rewrite app_nil_r.
Qed.

(** C8.  A get, create or update that succeeds returns the decoded
    envelope with the identifier of its wrapper copied into the [ID] of its
    attributes.  A find that succeeds returns, for each wrapper of the
    page, in order, its attributes with that identifier; a list-all that
    succeeds does so for the wrappers of all envelopes it received, in the
    order received; the copy is made item by item as each is appended. *)
Theorem identifier_is_copied (c : BetterstackClient) (w w' : World) :
  (forall id r,
      GetMonitor c id w = ((r, None), w') ->
      attributes_id r = wrapper_id r
      /\ exists body r0, Decode_one body = (r0, None) /\ r = copy_ID r0)
  /\ (forall monitor r,
         CreateMonitor c monitor w = ((r, None), w') ->
         attributes_id r = wrapper_id r
         /\ exists body r0, Decode_one body = (r0, None) /\ r = copy_ID r0)
  /\ (forall id monitor r,
         UpdateMonitor c id monitor w = ((r, None), w') ->
         attributes_id r = wrapper_id r
         /\ exists body r0, Decode_one body = (r0, None) /\ r = copy_ID r0)
  /\ (forall kind val ms,
         FindMonitor c kind val w = ((ms, None), w') ->
         exists r,
           ListMonitors c 1 kind val w = ((r, None), w')
           /\ ms = map with_id (ListWrapper.Data r))
  /\ (forall fuel ms,
         ListAllMonitors fuel c w = Some ((ms, None), w') ->
         exists rs, received c w rs w' /\ ms = map with_id (items_of rs))
  /\ (forall mon, Monitor.ID (with_id mon) = EntityWrapper.ID mon)
  /\ (forall acc mon, append_monitor acc mon = (acc ++ [with_id mon])%list).
Proof.
  assert (Hone : forall format body r,
             decode_one format body = (r, None) ->
             attributes_id r = wrapper_id r
             /\ exists body r0, Decode_one body = (r0, None) /\ r = copy_ID r0).
  { intros format body r H.
    destruct (decode_one_success _ _ _ H) as (r0 & Hd & ->).
    split; [reflexivity|]. exists body, r0. split; [exact Hd|reflexivity]. }
  split; [|split; [|split; [|split; [|split; [|split]]]]].
  - intros id r. unfold GetMonitor.
    destruct (http.NewRequest _ _ _) as [req|e]; [|discriminate].
    unfold bind. destruct (Do _ w) as [[resp|e] w1]; [|discriminate].
    intros H. injection H as H _. exact (Hone _ _ _ H).
  - intros monitor r. unfold CreateMonitor.
    destruct (Marshal monitor) as [body|e]; [|discriminate].
    destruct (http.NewRequest _ _ _) as [req|e]; [|discriminate].
    unfold bind. destruct (Do _ w) as [[resp|e] w1]; [|discriminate].
    destruct (negb _); [discriminate|].
    intros H. injection H as H _. exact (Hone _ _ _ H).
  - intros id monitor r. unfold UpdateMonitor.
    destruct (Marshal monitor) as [body|e]; [|discriminate].
    destruct (http.NewRequest _ _ _) as [req|e]; [|discriminate].
    unfold bind. destruct (Do _ w) as [[resp|e] w1]; [|discriminate].
    destruct (negb _); [discriminate|].
    intros H. injection H as H _. exact (Hone _ _ _ H).
  - intros kind val ms. unfold FindMonitor, bind.
    destruct (ListMonitors c 1 kind val w) as [[r [e|]] w1]; [discriminate|].
    intros H. injection H as <- <-. exists r. split; [reflexivity|].
    now rewrite append_monitors_map.
  - intros fuel ms. unfold ListAllMonitors.
    destruct (ListMonitors c 1 Blanc Blanc w) as [[r1 [e|]] w1] eqn:E1; [discriminate|].
    destruct (GetLastPage _) as [lastPage [e|]]; [discriminate|].
    destruct (1 =? lastPage).
    + intros H. injection H as <- <-. exists [r1]. split.
      * econstructor; [exact E1|constructor].
      * rewrite append_monitors_map. unfold items_of. cbn [map List.concat].
        now rewrite app_nil_r.
    + intros H. apply loop_success in H as (rs & Hrs & ->).
      exists (r1 :: rs). split.
      * econstructor; eassumption.
      * rewrite append_monitors_map, items_of_cons, map_app. reflexivity.
  - reflexivity.
  - reflexivity.
Qed.

(** What net/url reads off the request of a list call that passed
    validation. *)
Lemma list_pairs_query page ft fv :
  (funk.NotEmpty_string ft && funk.NotEmpty_string fv = true -> recognized ft = true) ->
  let q := fold_left add_pair (list_pairs page ft fv) [] in
  url.lookup q "per_page" = ["250"]
  /\ url.lookup q "page" = [page_text page]
  /\ (if funk.NotEmpty_string ft && funk.NotEmpty_string fv
      then url.lookup q ft = [fv] /\ filters_set q = 1%nat
      else filters_set q = 0%nat).
Proof.
  intros Hrec. unfold list_pairs.
  destruct (funk.NotEmpty_string ft && funk.NotEmpty_string fv).
  - specialize (Hrec eq_refl). unfold recognized in Hrec.
    apply orb_true_iff in Hrec as [H|H]; apply String.eqb_eq in H; subst ft;
      repeat split; reflexivity.
  - repeat split; reflexivity.
Qed.

(** A list call that passes validation sends one request, whose query is
    the pairs of [list_pairs]. *)
Lemma ListMonitors_sends c page ft fv w :
  (funk.NotEmpty_string ft && funk.NotEmpty_string fv = true -> recognized ft = true) ->
  exists params,
    list_params page ft fv = inl params
    /\ sent (snd (ListMonitors c page ft fv w)) = (sent w ++ [list_request c params])%list
    /\ query_of (list_request c params) = fold_left add_pair (list_pairs page ft fv) [].
Proof.
  intros Hrec.
  destruct (list_params_cases page ft fv) as [(Hne & Hno & _)|(_ & params & Hp & _)].
  { rewrite (Hrec Hne) in Hno. discriminate. }
  exists params. split; [exact Hp|].
  unfold ListMonitors. rewrite Hp.
  destruct (list_send_exchange c page ft fv params w Hp) as [-> Hq].
  split; [reflexivity|exact Hq].
Qed.

(** C6, as the code has it.  For a list call whose filter kind and filter
    value are both non-empty: with one of the two recognized kinds, one
    request is sent and it carries exactly one of the two filter
    parameters, the one the kind names, with the given value; with any
    other kind the call fails validation and nothing is sent. *)
Theorem ListMonitors_filter
        (c : BetterstackClient) (page : Z) (ft fv : string) (w : World) :
  ft <> "" -> fv <> "" ->
  (recognized ft = true ->
   exists req,
     sent (snd (ListMonitors c page ft fv w)) = (sent w ++ [req])%list
     /\ url.lookup (query_of req) ft = [fv]
     /\ filters_set (query_of req) = 1%nat)
  /\ (recognized ft = false ->
      ListMonitors c page ft fv w
      = ((ListWrapper.zero, Some (fmt_Errorf "invalid filter type: %s" [arg_string ft])),
         w)).
Proof.
  intros Hft Hfv.
  assert (Hne : funk.NotEmpty_string ft && funk.NotEmpty_string fv = true).
  { apply andb_true_iff. split; apply NotEmpty_string_true; assumption. }
  split.
  - intros Hrec.
    destruct (ListMonitors_sends c page ft fv w (fun _ => Hrec))
      as (params & _ & Hsent & Hq).
    exists (list_request c params). split; [exact Hsent|].
    rewrite Hq.
    pose proof (list_pairs_query page ft fv (fun _ => Hrec)) as (_ & _ & H).
    rewrite Hne in H. exact H.
  - intros Hrec.
    destruct (list_params_cases page ft fv) as [(_ & _ & Hp)|(H & _)].
    + unfold ListMonitors. rewrite Hp. reflexivity.
    + rewrite (H Hne) in Hrec. discriminate.
Qed.

(** C9.  A list call either fails validation (a filter of an unrecognized
    kind with a value) and sends nothing, or sends one request whose query
    has [per_page] equal to 250 and [page] equal to the page asked for,
    with 1 in place of any page below 1; a call for a page below 1 is the
    call for page 1. *)
Theorem ListMonitors_page_size
        (c : BetterstackClient) (page : Z) (ft fv : string) (w : World) :
  (if funk.NotEmpty_string ft && funk.NotEmpty_string fv && negb (recognized ft)
   then exists e, ListMonitors c page ft fv w = ((ListWrapper.zero, Some e), w)
   else exists req,
       sent (snd (ListMonitors c page ft fv w)) = (sent w ++ [req])%list
       /\ url.lookup (query_of req) "per_page" = ["250"]
       /\ url.lookup (query_of req) "page" = [fmt.Sprintf_d (Z.max 1 page)])
  /\ (page < 1 -> ListMonitors c page ft fv w = ListMonitors c 1 ft fv w).
Proof.
  split.
  - destruct (funk.NotEmpty_string ft && funk.NotEmpty_string fv) eqn:Hne;
      [destruct (recognized ft) eqn:Hrec|]; cbn [andb negb].
    + destruct (ListMonitors_sends c page ft fv w (fun _ => Hrec))
        as (params & _ & Hsent & Hq).
      exists (list_request c params). split; [exact Hsent|]. rewrite Hq.
      pose proof (list_pairs_query page ft fv (fun _ => Hrec)) as (H1 & H2 & _).
      split; assumption.
    + destruct (list_params_cases page ft fv) as [(_ & _ & Hp)|(H & _)].
      * unfold ListMonitors. rewrite Hp. eexists; reflexivity.
      * rewrite (H Hne) in Hrec. discriminate.
    + assert (Hrec : funk.NotEmpty_string ft && funk.NotEmpty_string fv = true ->
                     recognized ft = true) by (rewrite Hne; discriminate).
      destruct (ListMonitors_sends c page ft fv w Hrec) as (params & _ & Hsent & Hq).
      exists (list_request c params). split; [exact Hsent|]. rewrite Hq.
      pose proof (list_pairs_query page ft fv Hrec) as (H1 & H2 & _).
      split; assumption.
  - intros Hp. unfold ListMonitors, list_params.
    replace (page <? 1) with true by (symmetry; apply Z.ltb_lt; lia).
    reflexivity.
Qed.

(** C10.  When exactly one of filter kind and filter value is empty, the
    kind is not looked at: the call is the unfiltered call for the same
    page, whatever the kind, and the one request it sends carries neither
    filter parameter. *)
Theorem ListMonitors_half_filter
        (c : BetterstackClient) (page : Z) (ft fv : string) (w : World) :
  (ft = "" /\ fv <> "") \/ (ft <> "" /\ fv = "") ->
  list_params page ft fv = inl (page_params (Z.max 1 page))
  /\ ListMonitors c page ft fv w = ListMonitors c page Blanc Blanc w
  /\ sent (snd (ListMonitors c page ft fv w))
     = (sent w ++ [page_request c (Z.max 1 page)])%list
  /\ filters_set (query_of (page_request c (Z.max 1 page))) = 0%nat.
Proof.
  intros H.
  assert (Hne : funk.NotEmpty_string ft && funk.NotEmpty_string fv = false).
  { destruct H as [[-> _]|[_ ->]]; [reflexivity|apply andb_false_r]. }
  assert (Hp : list_params page ft fv = inl (page_params (Z.max 1 page))).
  { unfold list_params. rewrite Hne, clamp_max. reflexivity. }
  assert (Hrec : funk.NotEmpty_string ft && funk.NotEmpty_string fv = true ->
                 recognized ft = true) by (rewrite Hne; discriminate).
  split; [exact Hp|]. split; [|split].
  - unfold ListMonitors. rewrite Hp, list_params_unfiltered. reflexivity.
  - unfold ListMonitors. rewrite Hp.
    rewrite (proj1 (list_send_exchange c page ft fv _ w Hp)). reflexivity.
  - rewrite (proj2 (list_send_exchange c page ft fv _ w Hp) : query_of (page_request _ _) = _).
    pose proof (list_pairs_query page ft fv Hrec) as (_ & _ & Hf).
    rewrite Hne in Hf. exact Hf.
Qed.

End Operations.

(** * The claims on the fake transport *)

Import Fake.
Import Witness.

(** Settles [serves_page] on a fake transport by evaluation. *)
Ltac served := eexists; split; [reflexivity|split; reflexivity].

(** C1 on the fake transport [three_pages]: six items in page order and
    three requests. *)
Lemma ListAllMonitors_three_pages_witness :
  @ListAllMonitors (transport three_pages) 2 client (start three_pages)
  = Some ((map with_id [monitor "a"; monitor "b"; monitor "c";
                        monitor "d"; monitor "e"; monitor "f"], None),
          @mkWorld (transport three_pages) tt
                   [page_request client 1; page_request client 2; page_request client 3]).
Proof.
  exact (proj1 (@ListAllMonitors_three_pages (transport three_pages) client
                  (start three_pages) page1 page2 page3 tt tt tt 2
                  ltac:(served) ltac:(served) ltac:(served)
                  eq_refl eq_refl eq_refl eq_refl (le_n 2))).
Defined.

(** C2, as stated, fails: on an empty "last" link [GetLastPage] returns a
    failure, not the page count 1, and the enumerator, served one page of
    two items with an empty "last" link, returns the failure and no item. *)
Lemma empty_last_link_is_a_failure :
  GetLastPage (Pagination.mk "" "" "" "") = (0, Some page_not_found)
  /\ GetLastPage (Pagination.mk "" "" "" "") <> (1, None)
  /\ option_map fst (@ListAllMonitors (transport no_last_link) 2 client (start no_last_link))
     = Some ([], Some page_not_found)
  /\ option_map fst (@ListAllMonitors (transport no_last_link) 2 client (start no_last_link))
     <> Some (map with_id [monitor "a"; monitor "b"], None).
Proof. repeat split; (reflexivity || discriminate). Qed.

(** C2, as the code has it, on the fake transport [no_last_link]. *)
Lemma ListAllMonitors_empty_last_link_witness :
  GetLastPage (Pagination.mk "" "" "" "") = (0, Some page_not_found)
  /\ @ListAllMonitors (transport no_last_link) 2 client (start no_last_link)
     = Some (([], Some page_not_found),
             @mkWorld (transport no_last_link) tt [page_request client 1]).
Proof.
  exact (@ListAllMonitors_empty_last_link (transport no_last_link) client
           (start no_last_link)
           (@mkWorld (transport no_last_link) tt [page_request client 1])
           (ListWrapper.mk [monitor "a"; monitor "b"] any_nil (Pagination.mk "" "" "" ""))
           2 eq_refl eq_refl).
Defined.

(** C3 on the fake transports [down] (page 1 fails) and [page2_down]
    (page 2 of 3 fails). *)
Lemma ListAllMonitors_partial_failure_witness :
  @ListAllMonitors (transport down) 0 client (start down)
  = Some (([], Some refused_failure),
          @mkWorld (transport down) tt [page_request client 1])
  /\ @ListAllMonitors (transport page2_down) 1 client (start page2_down)
     = Some ((map with_id [monitor "a"; monitor "b"], Some refused_failure),
             @mkWorld (transport page2_down) tt
                      [page_request client 1; page_request client 2]).
Proof.
  split.
  - exact (proj1 (@ListAllMonitors_partial_failure (transport down) client (start down))
                 ListWrapper.zero refused_failure
                 (@mkWorld (transport down) tt [page_request client 1]) 0%nat eq_refl).
  - refine (proj2 (@ListAllMonitors_partial_failure (transport page2_down) client
                     (start page2_down))
                  3 2 page1 []
                  (@mkWorld (transport page2_down) tt [page_request client 1])
                  ListWrapper.zero refused_failure
                  (@mkWorld (transport page2_down) tt
                            [page_request client 1; page_request client 2])
                  1%nat _ _ _ eq_refl eq_refl eq_refl _).
    + reflexivity.
    + split; discriminate.
    + exists (@mkWorld (transport page2_down) tt [page_request client 1]).
      split; reflexivity.
    + apply le_n.
Defined.

(** C4 on four links: a relative one with the query [page=7], one of the
    list endpoint with page 12, one without [page], one with [page=two]. *)
Lemma GetLastPage_page_parameter_witness :
  GetLastPage (Pagination.mk "" "/api/v2/monitors?page=7#top" "" "") = (7, None)
  /\ GetLastPage
    (Pagination.mk "" "https://uptime.betterstack.com/api/v2/monitors?page=12&per_page=250"
                   "" "")
  = (12, None)
  /\ (exists e,
         GetLastPage (Pagination.mk "" "https://uptime.betterstack.com/api/v2/monitors" "" "")
         = (0, Some e))
  /\ (exists e,
         GetLastPage
           (Pagination.mk "" "https://uptime.betterstack.com/api/v2/monitors?page=two" "" "")
         = (0, Some e)).
Proof.
  destruct GetLastPage_page_parameter as (_ & Hraw & Hok & Hfail).
  split; [|split; [|split]].
  - exact (Hraw (Pagination.mk "" "/api/v2/monitors?page=7#top" "" "")
                (url.mkURL "" "" "" "/api/v2/monitors" false "page=7" "top")
                eq_refl eq_refl).
  - exact (Hok (Pagination.mk "" "https://uptime.betterstack.com/api/v2/monitors?page=12&per_page=250" "" "")
               (list_url "page=12&per_page=250") 12 eq_refl eq_refl).
  - refine (Hfail (Pagination.mk "" "https://uptime.betterstack.com/api/v2/monitors" "" "")
                  (list_url "") eq_refl _).
    left. reflexivity.
  - refine (Hfail (Pagination.mk "" "https://uptime.betterstack.com/api/v2/monitors?page=two" "" "")
                  (list_url "page=two") eq_refl _).
    right. discriminate.
Defined.

(** C5, as stated, fails: a create call answered with status 200 and a
    body that decodes cleanly returns the failure of a failed request
    execution, with nil for its cause; it has the format of the failure a
    refused connection gets. *)
Lemma create_status_failure_is_an_execution_failure :
  snd (as_one (one_body (monitor "a") any_nil)) = None
  /\ fst (@CreateMonitor (transport (status 200 "200 OK")) client Monitor.zero
                         (start (status 200 "200 OK")))
     = (ResponseWrapper.zero Monitor.zero, Some no_cause)
  /\ is_request_execution_failure no_cause = true
  /\ fst (@CreateMonitor (transport down) client Monitor.zero (start down))
     = (ResponseWrapper.zero Monitor.zero, Some refused_failure)
  /\ is_request_execution_failure refused_failure = true.
Proof. repeat split. Qed.

(** C5, as the code has it, on fake transports that answer every request
    with one status. *)
Lemma status_mismatch_is_reported_witness :
  (exists operand,
      fst (@CreateMonitor (transport (status 200 "200 OK")) client Monitor.zero
                          (start (status 200 "200 OK")))
      = (ResponseWrapper.zero Monitor.zero,
         Some (fmt_Errorf request_execution_format [operand])))
  /\ (exists operand,
         fst (@UpdateMonitor (transport (status 404 "404 Not Found")) client "7"
                             Monitor.zero (start (status 404 "404 Not Found")))
         = (ResponseWrapper.zero Monitor.zero,
            Some (fmt_Errorf request_execution_format [operand])))
  /\ (exists operand,
         fst (@DeleteMonitor (transport (status 200 "200 OK")) client "7"
                             (start (status 200 "200 OK")))
         = Some (fmt_Errorf request_execution_format [operand]))
  /\ fst (@DeleteMonitor (transport (status 204 "204 No Content")) client "7"
                         (start (status 204 "204 No Content")))
     = None.
Proof.
  split; [|split; [|split]].
  - destruct (@status_mismatch_is_reported (transport (status 200 "200 OK")) client
                (start (status 200 "200 OK"))
                (@mkWorld (transport (status 200 "200 OK")) tt [create_request client "{}"])
                (answer 200 "200 OK")) as (H & _).
    destruct (H Monitor.zero) as (H1 & _).
    { exists "{}". split; reflexivity. }
    destruct H1 as (operand & E); [discriminate|].
    exists operand. rewrite E. reflexivity.
  - destruct (@status_mismatch_is_reported (transport (status 404 "404 Not Found")) client
                (start (status 404 "404 Not Found"))
                (@mkWorld (transport (status 404 "404 Not Found")) tt
                          [update_request client "7" "{}"])
                (answer 404 "404 Not Found")) as (_ & H & _).
    destruct (H "7" Monitor.zero) as (H1 & _).
    { exists "{}". eexists. split; [reflexivity|split; reflexivity]. }
    destruct H1 as (operand & E); [discriminate|].
    exists operand. rewrite E. reflexivity.
  - destruct (@status_mismatch_is_reported (transport (status 200 "200 OK")) client
                (start (status 200 "200 OK"))
                (@mkWorld (transport (status 200 "200 OK")) tt [delete_request client "7"])
                (answer 200 "200 OK")) as (_ & _ & H & _).
    destruct (H "7") as (H1 & _).
    { eexists. split; reflexivity. }
    destruct H1 as (operand & E); [discriminate|].
    exists operand. rewrite E. reflexivity.
  - destruct (@status_mismatch_is_reported (transport (status 204 "204 No Content")) client
                (start (status 204 "204 No Content"))
                (@mkWorld (transport (status 204 "204 No Content")) tt
                          [delete_request client "7"])
                (answer 204 "204 No Content")) as (_ & _ & H & _).
    destruct (H "7") as (_ & H1).
    { eexists. split; reflexivity. }
    rewrite (H1 eq_refl). reflexivity.
Defined.

(** C6, as stated, fails: with an empty filter value, a call with a kind
    outside the recognized set passes validation and a request is sent;
    and a call with the recognized kind [url] sends a request that carries
    neither filter parameter. *)
Lemma empty_filter_value_is_not_validated :
  recognized "bogus" = false
  /\ snd (fst (@ListMonitors (transport three_pages) client 1 "bogus" ""
                             (start three_pages))) = None
  /\ sent (snd (@ListMonitors (transport three_pages) client 1 "bogus" ""
                              (start three_pages)))
     = [page_request client 1]
  /\ sent (snd (@ListMonitors (transport three_pages) client 1 "url" ""
                              (start three_pages)))
     = [page_request client 1]
  /\ filters_set (query_of (page_request client 1)) = 0%nat.
Proof. repeat split. Qed.

(** C6, as the code has it: a filter by [url] with a value, and a filter
    of the unknown kind [bogus] with a value. *)
Lemma ListMonitors_filter_witness :
  (exists req,
      sent (snd (@ListMonitors (transport three_pages) client 1 "url" "example.com"
                               (start three_pages)))
      = [req]
      /\ url.lookup (query_of req) "url" = ["example.com"]
      /\ filters_set (query_of req) = 1%nat)
  /\ @ListMonitors (transport three_pages) client 1 "bogus" "example.com"
                   (start three_pages)
     = ((ListWrapper.zero,
         Some (fmt_Errorf "invalid filter type: %s" [arg_string "bogus"])),
        start three_pages).
Proof.
  split.
  - refine (proj1 (@ListMonitors_filter (transport three_pages) client 1
                     "url" "example.com" (start three_pages) _ _) eq_refl);
      discriminate.
  - refine (proj2 (@ListMonitors_filter (transport three_pages) client 1
                     "bogus" "example.com" (start three_pages) _ _) eq_refl);
      discriminate.
Defined.

(** C7 on fake transports whose bodies carry the [errors] field
    "Unauthorized", and on one whose bodies carry none. *)
Lemma errors_field_decides_witness :
  fst (@ListMonitors (transport (reports (any_string "Unauthorized"))) client 1 "" ""
                     (start (reports (any_string "Unauthorized"))))
  = (ListWrapper.mk [monitor "a"] (any_string "Unauthorized") Pagination.zero,
     Some (fmt_Errorf "failed to list monitors: %v" [arg_any (any_string "Unauthorized")]))
  /\ fst (@GetMonitor (transport (reports (any_string "Unauthorized"))) client "7"
                      (start (reports (any_string "Unauthorized"))))
     = (ResponseWrapper.mk (monitor "a") (any_string "Unauthorized") Pagination.zero,
        Some (fmt_Errorf "failed to get monitor: %v" [arg_any (any_string "Unauthorized")]))
  /\ fst (@CreateMonitor (transport (reports (any_string "Unauthorized"))) client
                         Monitor.zero (start (reports (any_string "Unauthorized"))))
     = (ResponseWrapper.mk (monitor "a") (any_string "Unauthorized") Pagination.zero,
        Some (fmt_Errorf "failed to list monitors: %v" [arg_any (any_string "Unauthorized")]))
  /\ fst (@UpdateMonitor (transport (reports (any_string "Unauthorized"))) client "7"
                         Monitor.zero (start (reports (any_string "Unauthorized"))))
     = (ResponseWrapper.mk (monitor "a") (any_string "Unauthorized") Pagination.zero,
        Some (fmt_Errorf "failed to update monitor: %v"
                         [arg_any (any_string "Unauthorized")]))
  /\ fst (@GetMonitor (transport (reports any_nil)) client "7" (start (reports any_nil)))
     = (copy_ID (ResponseWrapper.mk (monitor "a") any_nil Pagination.zero), None).
Proof.
  pose (e := any_string "Unauthorized").
  pose (l := ListWrapper.mk [monitor "a"] e Pagination.zero).
  pose (r := ResponseWrapper.mk (monitor "a") e Pagination.zero).
  pose (resp := fun code errors =>
          http.mkResponse code ""
            (mkPayload (ListWrapper.mk [monitor "a"] errors Pagination.zero, None)
                       (ResponseWrapper.mk (monitor "a") errors Pagination.zero, None))).
  split; [|split; [|split; [|split]]].
  - destruct (@errors_field_decides (transport (reports e)) client (start (reports e))
                (@mkWorld (transport (reports e)) tt [page_request client 1])
                (resp 200 e)) as (H & _).
    destruct (H 1 "" "" l None) as (_ & H1 & _).
    { eexists. split; reflexivity. }
    { reflexivity. }
    exact (f_equal fst (H1 eq_refl eq_refl)).
  - destruct (@errors_field_decides (transport (reports e)) client (start (reports e))
                (@mkWorld (transport (reports e)) tt [get_request client "7"])
                (resp 200 e)) as (_ & H & _).
    destruct (H "7" r None) as (_ & H1 & _).
    { eexists. split; reflexivity. }
    { reflexivity. }
    exact (f_equal fst (H1 eq_refl eq_refl)).
  - destruct (@errors_field_decides (transport (reports e)) client (start (reports e))
                (@mkWorld (transport (reports e)) tt [create_request client "{}"])
                (resp 201 e)) as (_ & _ & H & _).
    destruct (H Monitor.zero r None) as (_ & H1 & _).
    { exists "{}". split; reflexivity. }
    { reflexivity. }
    exact (f_equal fst (H1 eq_refl eq_refl eq_refl)).
  - destruct (@errors_field_decides (transport (reports e)) client (start (reports e))
                (@mkWorld (transport (reports e)) tt [update_request client "7" "{}"])
                (resp 200 e)) as (_ & _ & _ & H & _).
    destruct (H "7" Monitor.zero r None) as (_ & H1 & _).
    { exists "{}". eexists. split; [reflexivity|split; reflexivity]. }
    { reflexivity. }
    exact (f_equal fst (H1 eq_refl eq_refl eq_refl)).
  - destruct (@errors_field_decides (transport (reports any_nil)) client
                (start (reports any_nil))
                (@mkWorld (transport (reports any_nil)) tt [get_request client "7"])
                (resp 200 any_nil)) as (_ & H & _).
    destruct (H "7" (ResponseWrapper.mk (monitor "a") any_nil Pagination.zero) None)
      as (_ & _ & H1).
    { eexists. split; reflexivity. }
    { reflexivity. }
    exact (f_equal fst (H1 eq_refl eq_refl)).
Defined.

(** C8 on a get that succeeds and on the enumeration of three pages. *)
Lemma identifier_is_copied_witness :
  attributes_id (fst (fst (@GetMonitor (transport (reports any_nil)) client "7"
                                       (start (reports any_nil)))))
  = "a"
  /\ (exists rs,
         received (env := transport three_pages) client (start three_pages) rs
                  (@mkWorld (transport three_pages) tt
                            [page_request client 1; page_request client 2;
                             page_request client 3])
         /\ map with_id [monitor "a"; monitor "b"; monitor "c";
                         monitor "d"; monitor "e"; monitor "f"]
            = map with_id (items_of rs)).
Proof.
  split.
  - destruct (@identifier_is_copied (transport (reports any_nil)) client
                (start (reports any_nil))
                (@mkWorld (transport (reports any_nil)) tt [get_request client "7"]))
      as (H & _).
    destruct (H "7" (copy_ID (ResponseWrapper.mk (monitor "a") any_nil Pagination.zero))
                eq_refl) as (H1 & _).
    exact H1.
  - destruct (@identifier_is_copied (transport three_pages) client (start three_pages)
                (@mkWorld (transport three_pages) tt
                          [page_request client 1; page_request client 2;
                           page_request client 3]))
      as (_ & _ & _ & _ & H & _).
    exact (H 2%nat _ eq_refl).
Defined.

(** C9: calls for pages 0 and -3 are calls for page 1. *)
Lemma ListMonitors_page_size_witness :
  @ListMonitors (transport three_pages) client 0 "" "" (start three_pages)
  = @ListMonitors (transport three_pages) client 1 "" "" (start three_pages)
  /\ @ListMonitors (transport three_pages) client (-3) "url" "example.com"
                   (start three_pages)
     = @ListMonitors (transport three_pages) client 1 "url" "example.com"
                     (start three_pages).
Proof.
  split.
  - exact (proj2 (@ListMonitors_page_size (transport three_pages) client 0 "" ""
                    (start three_pages)) eq_refl).
  - exact (proj2 (@ListMonitors_page_size (transport three_pages) client (-3)
                    "url" "example.com" (start three_pages)) eq_refl).
Defined.

(** C10: a kind without value, and a value without kind. *)
Lemma ListMonitors_half_filter_witness :
  @ListMonitors (transport three_pages) client 1 "bogus" "" (start three_pages)
  = @ListMonitors (transport three_pages) client 1 Blanc Blanc (start three_pages)
  /\ @ListMonitors (transport three_pages) client 1 "" "example.com" (start three_pages)
     = @ListMonitors (transport three_pages) client 1 Blanc Blanc (start three_pages)
  /\ sent (snd (@ListMonitors (transport three_pages) client 1 "url" ""
                              (start three_pages)))
     = [page_request client 1]
  /\ filters_set (query_of (page_request client 1)) = 0%nat.
Proof.
  split; [|split].
  - refine (proj1 (proj2 (@ListMonitors_half_filter (transport three_pages) client 1
                            "bogus" "" (start three_pages) _))).
    right. split; [discriminate|reflexivity].
  - refine (proj1 (proj2 (@ListMonitors_half_filter (transport three_pages) client 1
                            "" "example.com" (start three_pages) _))).
    left. split; [reflexivity|discriminate].
  - refine (proj2 (proj2 (@ListMonitors_half_filter (transport three_pages) client 1
                            "url" "" (start three_pages) _))).
    right. split; [discriminate|reflexivity].
Defined.

(** * Further properties of the code *)

(** ** Decimal numerals, written and read back *)

Lemma digits_value_ge d : forall acc, 0 <= acc -> acc <= digits_value acc d.
Proof.
  induction d; intros acc Hacc; cbn [digits_value]; try lia;
    (etransitivity; [|apply IHd; lia]); lia.
Qed.

Lemma of_uint_acc_value d : forall acc,
  Z.pos (Pos.of_uint_acc d acc) = digits_value (Z.pos acc) d.
Proof.
  induction d; intros acc; cbn [Pos.of_uint_acc digits_value];
    try reflexivity; rewrite IHd; f_equal; lia.
Qed.

Lemma of_uint_value d : Z.of_N (Pos.of_uint d) = digits_value 0 d.
Proof.
  induction d; cbn [Pos.of_uint digits_value]; try reflexivity;
    try exact IHd; cbn [Z.of_N]; rewrite of_uint_acc_value; reflexivity.
Qed.

Lemma ParseUint_loop_step c s n k :
  is_digit c = true -> Z.of_N (code c) - 48 = k ->
  0 <= n -> 0 <= k -> 10 * n + k <= strconv.maxUint64 ->
  strconv.ParseUint_loop n (String c s) = strconv.ParseUint_loop (10 * n + k) s.
Proof.
  intros Hd Hk Hn Hk0 Hmax. cbn [strconv.ParseUint_loop]. rewrite Hd, Hk.
  change strconv.maxUint64 with 18446744073709551615 in *.
  change (18446744073709551615 / 10 + 1) with 1844674407370955162.
  destruct (Z.leb_spec 1844674407370955162 n) as [Hc|Hc]; [lia|].
  destruct (Z.ltb_spec 18446744073709551615 (n * 10 + k)) as [Hlt|Hlt]; [lia|].
  f_equal. lia.
Qed.

(** The digit loop reads the digits of a numeral that fits 64 bits. *)
Lemma ParseUint_loop_digits d : forall n,
  0 <= n -> digits_value n d <= strconv.maxUint64 ->
  strconv.ParseUint_loop n (NilEmpty.string_of_uint d) = (digits_value n d, None).
Proof.
  induction d; intros n Hn Hmax; cbn [NilEmpty.string_of_uint digits_value] in *;
    try reflexivity.
  all: match goal with
       | H : digits_value ?m ?d' <= _ |- _ =>
           pose proof (digits_value_ge d' m ltac:(lia)) as Hge
       end.
  all: match goal with
       | |- context [digits_value (10 * ?m + ?k) _] =>
           rewrite (ParseUint_loop_step _ _ m k) by (reflexivity || lia)
       | |- context [digits_value (10 * ?m) _] =>
           rewrite (ParseUint_loop_step _ _ m 0) by (reflexivity || lia);
           rewrite Z.add_0_r
       end.
  all: apply IHd; lia.
Qed.

Lemma digit_not_sign :
  forall c, is_digit c = true -> Ascii.eqb c "-" = false /\ Ascii.eqb c "+" = false.
Proof. by_bytes. Qed.

Lemma Atoi_unsigned c s v :
  is_digit c = true ->
  strconv.ParseUint_loop 0 (String c s) = (v, None) -> v < 2 ^ 63 ->
  strconv.Atoi (String c s) = (v, None).
Proof.
  intros Hd Hp Hv. destruct (digit_not_sign c Hd) as [Hm Hpl].
  unfold strconv.Atoi. rewrite Hm, Hpl. cbn [orb]. cbv zeta iota.
  unfold strconv.ParseUint. rewrite Hp. cbn [negb andb].
  destruct (Z.leb_spec (2 ^ 63) v); [lia|reflexivity].
Qed.

Lemma Atoi_signed c s v :
  strconv.ParseUint_loop 0 (String c s) = (v, None) -> v <= 2 ^ 63 ->
  strconv.Atoi (String "-" (String c s)) = (- v, None).
Proof.
  intros Hp Hv. unfold strconv.Atoi.
  change (Ascii.eqb "-" "-") with true. rewrite orb_true_r. cbv zeta iota.
  unfold strconv.ParseUint. rewrite Hp. cbn [negb andb].
  destruct (Z.ltb_spec (2 ^ 63) v); [lia|reflexivity].
Qed.

Lemma string_of_uint_digits d :
  d <> Decimal.Nil ->
  exists c s, NilEmpty.string_of_uint d = String c s /\ is_digit c = true.
Proof.
  destruct d; [congruence| | | | | | | | | |]; intros _;
    cbn [NilEmpty.string_of_uint]; do 2 eexists; split; reflexivity.
Qed.

(** [strconv.Atoi] reads back what [%d] writes, for every [int]. *)
Lemma Atoi_Sprintf_d z :
  MinInt64 <= z <= MaxInt64 -> strconv.Atoi (fmt.Sprintf_d z) = (z, None).
Proof.
  unfold MinInt64, MaxInt64. intros Hz.
  pose proof (DecimalZ.of_to z) as Hof.
  unfold fmt.Sprintf_d. destruct (Z.to_int z) as [d|d] eqn:Ed;
    cbn [Z.of_int] in Hof; unfold Z.of_uint in Hof; rewrite of_uint_value in Hof;
    pose proof (digits_value_ge d 0 ltac:(lia)) as Hge;
    cbn [NilZero.string_of_int]; unfold NilZero.string_of_uint.
  - destruct (Decimal.uint_eq_dec d Decimal.Nil) as [->|Hd].
    { rewrite <- Hof. reflexivity. }
    destruct (string_of_uint_digits d Hd) as (c & s & Es & Hc).
    replace (match d with Decimal.Nil => "0" | _ => NilEmpty.string_of_uint d end)
      with (String c s) by (rewrite <- Es; destruct d; congruence).
    rewrite <- Hof. apply Atoi_unsigned; [exact Hc| |lia].
    rewrite <- Es. apply ParseUint_loop_digits; [lia|].
    change strconv.maxUint64 with 18446744073709551615. lia.
  - destruct (Decimal.uint_eq_dec d Decimal.Nil) as [->|Hd].
    { rewrite <- Hof. reflexivity. }
    destruct (string_of_uint_digits d Hd) as (c & s & Es & Hc).
    replace (match d with Decimal.Nil => "0" | _ => NilEmpty.string_of_uint d end)
      with (String c s) by (rewrite <- Es; destruct d; congruence).
    rewrite <- Hof. apply Atoi_signed; [|lia].
    rewrite <- Es. apply ParseUint_loop_digits; [lia|].
    change strconv.maxUint64 with 18446744073709551615. lia.
Qed.

Section Further.

Context {env : Env}.

(** ** The "last" link and the client's own targets *)

(** X1.  The page number the client writes into the target of a list
    request is the page count [GetLastPage] reads off that target, for
    every [int]: a "last" link of the shape the client itself requests is
    read back exactly. *)
Theorem GetLastPage_page_request (c : BetterstackClient) (i : Z) :
  MinInt64 <= i <= MaxInt64 ->
  GetLastPage (Pagination.mk "" (http.URL (page_request c i)) "" "") = (i, None).
Proof.
  intros Hi. pose proof (Atoi_Sprintf_d i Hi) as Ha.
  assert (Hkeys : Forall (fun kv : string * string => plain_key (fst kv))
                         [("page", fmt.Sprintf_d i); ("per_page", "250")]).
  { repeat constructor; plain_literal. }
  unfold GetLastPage. cbn [Pagination.Last].
  unfold page_request, page_params, list_request. cbn [http.URL].
  rewrite Encode_two.
  rewrite Parse_Monitors_query
    by (apply join_pairs_not_empty || apply join_pairs_query_bytes;
        (plain_literal || exact Hkeys)).
  unfold url.Query, list_url. cbn [url.RawQuery].
  rewrite ParseQuery_join_pairs by exact Hkeys.
  cbn [fold_left add_pair fst snd url.Add String.eqb Ascii.eqb Bool.eqb].
  change (url.Get _ "page") with (fmt.Sprintf_d i).
  destruct (funk.IsEmpty_string (fmt.Sprintf_d i)) eqn:E.
  - apply String.eqb_eq in E. rewrite E in Ha. discriminate.
  - rewrite Ha. reflexivity.
Qed.

(** ** The enumerator *)

Lemma ListMonitors_page_any c i w :
  ListMonitors c i Blanc Blanc w
  = (list_receive (fst (RoundTrip (page_request c (Z.max 1 i)) (remote w))),
     mkWorld (snd (RoundTrip (page_request c (Z.max 1 i)) (remote w)))
             (sent w ++ [page_request c (Z.max 1 i)])%list).
Proof.
  unfold ListMonitors. rewrite list_params_unfiltered.
  apply (proj1 (list_send_exchange c i Blanc Blanc _ w (list_params_unfiltered i))).
Qed.

Lemma pages_from_cons i n : pages_from i (S n) = i :: pages_from (i + 1) n.
Proof.
  unfold pages_from. cbn [seq map]. f_equal; [lia|].
  rewrite <- seq_shift, map_map. apply map_ext. intros j. lia.
Qed.

Lemma pages_listed_sent c rs : forall i w w',
  pages_listed c i rs w w' -> 1 <= i ->
  sent w' = (sent w ++ map (page_request c) (pages_from i (List.length rs)))%list.
Proof.
  induction rs as [|r rs IH]; intros i w w' Hl Hi.
  - simpl in Hl. subst w'. cbn. now rewrite app_nil_r.
  - destruct Hl as (w1 & H1 & Hl).
    rewrite (IH _ _ _ Hl) by lia.
    rewrite ListMonitors_page in H1 by exact Hi.
    injection H1 as _ <-. cbn [sent List.length].
    rewrite pages_from_cons. cbn [map]. now rewrite <- app_assoc.
Qed.

(** X2.  When the "last" link of page 1 names a page at or below 1, the
    enumerator returns the items of page 1 after its one request, whatever
    the fuel: for page 1 through the early return, for 0 or a negative
    page because the loop from page 2 does not run. *)
Theorem ListAllMonitors_single_page
        (c : BetterstackClient) (w w1 : World) (r1 : MonitorsResponse)
        (n : Z) (fuel : nat) :
  ListMonitors c 1 Blanc Blanc w = ((r1, None), w1) ->
  GetLastPage (ListWrapper.Pagination r1) = (n, None) ->
  n <= 1 ->
  ListAllMonitors fuel c w = Some ((map with_id (ListWrapper.Data r1), None), w1).
Proof.
  intros H1 Hlast Hn. unfold ListAllMonitors. rewrite H1, Hlast.
  rewrite append_monitors_map. cbn [app].
  destruct (1 =? n); [reflexivity|].
  change (incr 1) with 2.
  destruct fuel; cbn [ListAllMonitors_loop];
    replace (2 <=? n) with false by (symmetry; apply Z.leb_gt; lia); reflexivity.
Qed.

(** X3.  When the "last" link of page 1 names page n below the largest
    [int], and the n pages are listed without failure, the enumerator
    returns the items of all n pages in page order, leaves the world the
    last call left, and has sent exactly the requests for pages 1 to n, in
    this order; the pagination links of the later pages play no part. *)
Theorem ListAllMonitors_all_pages
        (c : BetterstackClient) (w w' : World) (r1 : MonitorsResponse)
        (rs : list MonitorsResponse) (n : Z) (fuel : nat) :
  pages_listed c 1 (r1 :: rs) w w' ->
  GetLastPage (ListWrapper.Pagination r1) = (n, None) ->
  Z.of_nat (List.length (r1 :: rs)) = n ->
  n < MaxInt64 ->
  (List.length rs <= fuel)%nat ->
  ListAllMonitors fuel c w = Some ((map with_id (items_of (r1 :: rs)), None), w')
  /\ sent w'
     = (sent w ++ map (page_request c) (pages_from 1 (List.length (r1 :: rs))))%list.
Proof.
  intros Hl Hlast Hlen Hmax Hfuel. unfold MaxInt64 in Hmax.
  split; [|apply pages_listed_sent; [exact Hl|lia]].
  destruct Hl as (w1 & H1 & Hl). cbn [List.length] in Hlen.
  unfold ListAllMonitors. rewrite H1, Hlast.
  rewrite append_monitors_map. cbn [app].
  destruct (Z.eqb_spec 1 n) as [E|E].
  - destruct rs; [|cbn [List.length] in Hlen; lia].
    simpl in Hl. subst w'. unfold items_of. cbn. now rewrite app_nil_r.
  - change (incr 1) with 2. change (1 + 1) with 2 in Hl.
    assert (Hf : exists fuel', fuel = (List.length rs + fuel')%nat).
    { exists (fuel - List.length rs)%nat. lia. }
    destruct Hf as [fuel' ->].
    rewrite (loop_pages_listed c n rs 2 _ w1 w' fuel' Hl) by lia.
    destruct fuel'; cbn [ListAllMonitors_loop];
      replace (2 + Z.of_nat (List.length rs) <=? n) with false
        by (symmetry; apply Z.leb_gt; lia);
      rewrite items_of_cons, map_app; reflexivity.
Qed.

Lemma incr_range i : MinInt64 <= incr i <= MaxInt64.
Proof.
  unfold incr, MinInt64, MaxInt64.
  pose proof (Z.mod_pos_bound (i + 1 + 2 ^ 63) (2 ^ 64) ltac:(lia)). lia.
Qed.

Lemma loop_endless c fuel : forall i acc w,
  (forall j w0, snd (fst (ListMonitors c j Blanc Blanc w0)) = None) ->
  MinInt64 <= i <= MaxInt64 ->
  ListAllMonitors_loop fuel c i MaxInt64 acc w = None.
Proof.
  induction fuel as [|fuel IH]; intros i acc w Hok Hi; cbn [ListAllMonitors_loop];
    replace (i <=? MaxInt64) with true by (symmetry; apply Z.leb_le; lia);
    [reflexivity|].
  pose proof (Hok i w) as Hi'.
  destruct (ListMonitors c i Blanc Blanc w) as [[t e] w1]. cbn [fst snd] in Hi'.
  subst e. apply IH; [exact Hok|apply incr_range].
Qed.

(** X4.  When the "last" link of page 1 names the largest [int] and no
    list call ever fails, the enumerator never returns: the counter of its
    loop wraps around to the smallest [int] and stays at or below the last
    page, so no amount of fuel gives a result. *)
Theorem ListAllMonitors_never_returns
        (c : BetterstackClient) (w : World) (fuel : nat) :
  (forall j w0, snd (fst (ListMonitors c j Blanc Blanc w0)) = None) ->
  GetLastPage (ListWrapper.Pagination (fst (fst (ListMonitors c 1 Blanc Blanc w))))
  = (MaxInt64, None) ->
  ListAllMonitors fuel c w = None.
Proof.
  intros Hok Hlast. unfold ListAllMonitors.
  pose proof (Hok 1 w) as H1.
  destruct (ListMonitors c 1 Blanc Blanc w) as [[r1 e] w1]. cbn [fst snd] in *.
  subst e. rewrite Hlast. change (1 =? MaxInt64) with false. cbv iota.
  apply loop_endless; [exact Hok|apply incr_range].
Qed.

Lemma loop_terminates c lastPage fuel : forall i acc w,
  lastPage < MaxInt64 -> MinInt64 <= i ->
  (Z.to_nat (lastPage + 1 - i) <= fuel)%nat ->
  exists res, ListAllMonitors_loop fuel c i lastPage acc w = Some res.
Proof.
  unfold MaxInt64, MinInt64.
  induction fuel as [|fuel IH]; intros i acc w Hmax Hi Hfuel;
    cbn [ListAllMonitors_loop]; destruct (Z.leb_spec i lastPage) as [Hle|Hgt];
    try (eexists; reflexivity); [lia|].
  destruct (ListMonitors c i Blanc Blanc w) as [[t [e|]] w1];
    [eexists; reflexivity|].
  rewrite incr_succ by lia. apply IH; unfold MaxInt64, MinInt64; lia.
Qed.

(** X5.  Away from that bound the enumerator ends: when page 1 is listed
    and its "last" link names page n below the largest [int], n - 1 units
    of fuel give a result, whatever the transport does; and when the first
    call or the reading of the link fails, any fuel does. *)
Theorem ListAllMonitors_terminates
        (c : BetterstackClient) (w : World) (fuel : nat) :
  (forall r1 w1 n,
      ListMonitors c 1 Blanc Blanc w = ((r1, None), w1) ->
      GetLastPage (ListWrapper.Pagination r1) = (n, None) ->
      n < MaxInt64 /\ (Z.to_nat (n - 1) <= fuel)%nat) ->
  exists res, ListAllMonitors fuel c w = Some res.
Proof.
  intros H. unfold ListAllMonitors.
  destruct (ListMonitors c 1 Blanc Blanc w) as [[r1 [e|]] w1] eqn:E1;
    [eexists; reflexivity|].
  destruct (GetLastPage _) as [n [e|]] eqn:El; [eexists; reflexivity|].
  destruct (H r1 w1 n eq_refl El) as [Hmax Hfuel].
  destruct (1 =? n); [eexists; reflexivity|].
  change (incr 1) with 2.
  apply loop_terminates; [exact Hmax|unfold MinInt64; lia|lia].
Qed.

Lemma loop_requests c lastPage fuel : forall i acc w res w',
  ListAllMonitors_loop fuel c i lastPage acc w = Some (res, w') ->
  exists pages,
    sent w' = (sent w ++ map (page_request c) pages)%list
    /\ Forall (fun p => 1 <= p) pages.
Proof.
  induction fuel as [|fuel IH]; intros i acc w res w'; cbn [ListAllMonitors_loop];
    destruct (i <=? lastPage); try discriminate.
  1,3: intros H; injection H as _ <-; exists []; split;
    [now rewrite app_nil_r|constructor].
  rewrite ListMonitors_page_any.
  destruct (list_receive _) as [t [e|]].
  - intros H. injection H as _ <-. exists [Z.max 1 i]. split; [reflexivity|].
    repeat constructor. lia.
  - intros H. apply IH in H as (pages & Hs & Hp).
    exists (Z.max 1 i :: pages). split.
    + rewrite Hs. cbn [sent map]. now rewrite <- app_assoc.
    + constructor; [lia|exact Hp].
Qed.

(** X6.  Whatever the outcome, all the enumerator sends are unfiltered
    list requests with the headers of the client: the request for page 1
    first, then requests for pages from 1 up. *)
Theorem ListAllMonitors_requests
        (c : BetterstackClient) (w w' : World) (fuel : nat)
        (res : list Monitor.t * option error) :
  ListAllMonitors fuel c w = Some (res, w') ->
  exists pages,
    sent w' = (sent w ++ map (page_request c) (1 :: pages))%list
    /\ Forall (fun p => 1 <= p) pages.
Proof.
  unfold ListAllMonitors. rewrite ListMonitors_page_any. change (Z.max 1 1) with 1.
  destruct (list_receive _) as [r1 [e|]].
  { intros H. injection H as _ <-. exists []. split; [reflexivity|constructor]. }
  destruct (GetLastPage _) as [n [e|]].
  { intros H. injection H as _ <-. exists []. split; [reflexivity|constructor]. }
  destruct (1 =? n).
  { intros H. injection H as _ <-. exists []. split; [reflexivity|constructor]. }
  intros H. apply loop_requests in H as (pages & Hs & Hp).
  exists pages. split; [|exact Hp].
  rewrite Hs. cbn [sent map]. now rewrite <- app_assoc.
Qed.

(** X7.  When page 1 is listed but its "last" link cannot be read, for
    whatever reason, the enumerator returns the failure of the reading and
    an empty result: the items of page 1 are not returned. *)
Theorem ListAllMonitors_pagination_failure
        (c : BetterstackClient) (w w1 : World) (r1 : MonitorsResponse)
        (v : Z) (e : error) (fuel : nat) :
  ListMonitors c 1 Blanc Blanc w = ((r1, None), w1) ->
  GetLastPage (ListWrapper.Pagination r1) = (v, Some e) ->
  ListAllMonitors fuel c w = Some (([], Some e), w1).
Proof.
  intros H1 Hl. unfold ListAllMonitors. rewrite H1, Hl. reflexivity.
Qed.

End Further.

(** ** Targets of the single-resource operations *)

Lemma id_byte_not_hash : forall c, id_byte c = true -> negb (Ascii.eqb "#" c) = true.
Proof. by_bytes. Qed.

Lemma id_byte_not_question : forall c, id_byte c = true -> negb (Ascii.eqb "?" c) = true.
Proof. by_bytes. Qed.

Lemma id_byte_not_percent : forall c, id_byte c = true -> negb (Ascii.eqb "%" c) = true.
Proof. by_bytes. Qed.

Lemma id_byte_not_ctl :
  forall c, id_byte c = true -> negb ((code c <? 32)%N || Ascii.eqb c "127") = true.
Proof. by_bytes. Qed.

Lemma unescape_check_path_cons :
  forall c s,
    Ascii.eqb "%" c = false ->
    url.unescape_check (String c s) url.encodePath = url.unescape_check s url.encodePath.
Proof.
  intro c; pattern c; apply ascii_cases; clear c.
  intros [] [] [] [] [] [] [] [] s H; first [discriminate H | reflexivity].
Qed.

Lemma unescape_build_path_cons :
  forall c s,
    Ascii.eqb "%" c = false ->
    url.unescape_build (String c s) url.encodePath
    = String c (url.unescape_build s url.encodePath).
Proof.
  intro c; pattern c; apply ascii_cases; clear c.
  intros [] [] [] [] [] [] [] [] s H; first [discriminate H | reflexivity].
Qed.

(** A path without "%" is its own unescaped form. *)
Lemma unescape_path s :
  without "%" s = true -> url.unescape s url.encodePath = Ok s.
Proof.
  unfold without, url.unescape. intros H.
  assert (Hc : url.unescape_check s url.encodePath = None
               /\ url.unescape_build s url.encodePath = s).
  { induction s as [|c s IH]; [split; reflexivity|].
    rewrite all_String in H. apply andb_true_iff in H as [Hc Hs].
    apply negb_true_iff in Hc. destruct (IH Hs) as [IH1 IH2].
    rewrite unescape_check_path_cons, unescape_build_path_cons by exact Hc.
    rewrite IH1, IH2. split; reflexivity. }
  destruct Hc as [-> ->]. reflexivity.
Qed.

(** The target of a single-resource request parses when the identifier
    holds no control byte and none of "#", "?", "%"; its path ends in the
    identifier as given. *)
Lemma Parse_MonitorID id :
  strings.all id_byte id = true -> url.Parse (MonitorID id) = Ok (single_url id).
Proof.
  intros Hid.
  change (MonitorID id) with ("https://uptime.betterstack.com/api/v2/monitors/" ++ id).
  unfold url.Parse.
  rewrite Cut_absent.
  2:{ rewrite all_append. rewrite (all_impl _ _ _ id_byte_not_hash Hid). reflexivity. }
  unfold url.parse.
  replace (url.stringContainsCTLByte _) with false.
  2:{ unfold url.stringContainsCTLByte. rewrite all_append.
      rewrite (all_impl _ _ _ id_byte_not_ctl Hid). reflexivity. }
  cbv beta iota.
  change (String.eqb ("https://uptime.betterstack.com/api/v2/monitors/" ++ id) EmptyString)
    with false.
  change (String.eqb ("https://uptime.betterstack.com/api/v2/monitors/" ++ id) "*")
    with false.
  cbv beta iota. simpl andb. cbv iota.
  change (url.getScheme ("https://uptime.betterstack.com/api/v2/monitors/" ++ id))
    with ("https", "//uptime.betterstack.com/api/v2/monitors/" ++ id, @None error).
  cbv beta iota.
  assert (Hq : strings.all (fun c => negb (Ascii.eqb "?" c))
                           ("//uptime.betterstack.com/api/v2/monitors/" ++ id) = true).
  { rewrite all_append. rewrite (all_impl _ _ _ id_byte_not_question Hid). reflexivity. }
  rewrite (HasSuffixByte_all _ _ "?" Hq) by reflexivity.
  simpl andb. cbv iota.
  rewrite (Cut_absent "?" _ Hq).
  unfold url.parse_rest.
  change (strings.HasPrefix ("//uptime.betterstack.com/api/v2/monitors/" ++ id) "/")
    with true.
  change (strings.HasPrefix ("//uptime.betterstack.com/api/v2/monitors/" ++ id) "///")
    with false.
  change (strings.HasPrefix ("//uptime.betterstack.com/api/v2/monitors/" ++ id) "//")
    with true.
  cbn [negb andb orb String.eqb Ascii.eqb Bool.eqb]. cbv iota.
  change (strings.drop 2 ("//uptime.betterstack.com/api/v2/monitors/" ++ id))
    with ("uptime.betterstack.com/api/v2/monitors/" ++ id).
  change (strings.Index ("uptime.betterstack.com/api/v2/monitors/" ++ id) "/")
    with (Some 22%nat).
  cbv iota beta.
  change (strings.take 22 ("uptime.betterstack.com/api/v2/monitors/" ++ id))
    with "uptime.betterstack.com".
  change (strings.drop 22 ("uptime.betterstack.com/api/v2/monitors/" ++ id))
    with ("/api/v2/monitors/" ++ id).
  change (url.parseAuthority "uptime.betterstack.com")
    with (@Ok string "uptime.betterstack.com").
  cbv iota beta.
  rewrite unescape_path.
  2:{ unfold without. rewrite all_append.
      rewrite (all_impl _ _ _ id_byte_not_percent Hid). reflexivity. }
  reflexivity.
Qed.

Lemma Parse_MonitorID_control id :
  without "#" id = true -> url.stringContainsCTLByte id = true ->
  url.Parse (MonitorID id) = Err (control_byte_failure (MonitorID id)).
Proof.
  unfold without. intros Hh Hc.
  change (MonitorID id) with ("https://uptime.betterstack.com/api/v2/monitors/" ++ id).
  unfold url.Parse.
  rewrite Cut_absent by (rewrite all_append, Hh; reflexivity).
  assert (Hctl : url.stringContainsCTLByte
                   ("https://uptime.betterstack.com/api/v2/monitors/" ++ id) = true).
  { unfold url.stringContainsCTLByte in *. rewrite all_append.
    apply negb_true_iff in Hc. rewrite Hc. reflexivity. }
  unfold url.parse. rewrite Hctl. reflexivity.
Qed.

Section FurtherOperations.

Context {env : Env}.

(** X8.  For an identifier without control bytes and without "#", "?"
    and "%", get, delete and (once the monitor is serialized) update each
    send exactly one request: to the monitor's address, which ends in the
    identifier as given, with the method of the operation, the headers of
    the client and, for update, the serialized monitor as body. *)
Theorem single_resource_request_is_sent
        (c : BetterstackClient) (id : string) (w : World) :
  strings.all id_byte id = true ->
  url.Parse (MonitorID id) = Ok (single_url id)
  /\ sent (snd (GetMonitor c id w)) = (sent w ++ [get_request c id])%list
  /\ sent (snd (DeleteMonitor c id w)) = (sent w ++ [delete_request c id])%list
  /\ (forall monitor body,
         Marshal monitor = Ok body ->
         sent (snd (UpdateMonitor c id monitor w))
         = (sent w ++ [update_request c id body])%list).
Proof.
  intros Hid. pose proof (Parse_MonitorID id Hid) as Hp.
  split; [exact Hp|]. split; [|split].
  - unfold GetMonitor, http.NewRequest. rewrite Hp.
    change (http.set_Header _ _) with (get_request c id).
    unfold bind, Do. destruct (RoundTrip _ _) as [[resp|e] rem']; reflexivity.
  - unfold DeleteMonitor, http.NewRequest. rewrite Hp.
    change (http.set_Header _ _) with (delete_request c id).
    unfold bind, Do. destruct (RoundTrip _ _) as [[resp|e] rem']; [|reflexivity].
    cbv zeta. destruct (negb _); reflexivity.
  - intros monitor body Hm. unfold UpdateMonitor, http.NewRequest. rewrite Hm, Hp.
    change (http.set_Header _ _) with (update_request c id body).
    unfold bind, Do. destruct (RoundTrip _ _) as [[resp|e] rem']; [|reflexivity].
    destruct (negb _); reflexivity.
Qed.

(** X9.  For an identifier that holds a control byte and no "#", get,
    delete and (once the monitor is serialized) update fail before
    anything is sent: they return the failure of the request creation,
    with the failure of net/url as its cause, and leave the world as it
    was. *)
Theorem control_byte_in_identifier
        (c : BetterstackClient) (id : string) (w : World) :
  without "#" id = true -> url.stringContainsCTLByte id = true ->
  let failure :=
    fmt_Errorf request_creation_format
               [arg_error (Some (control_byte_failure (MonitorID id)))] in
  GetMonitor c id w = ((ResponseWrapper.zero Monitor.zero, Some failure), w)
  /\ DeleteMonitor c id w = (Some failure, w)
  /\ (forall monitor body,
         Marshal monitor = Ok body ->
         UpdateMonitor c id monitor w
         = ((ResponseWrapper.zero Monitor.zero, Some failure), w)).
Proof.
  intros Hh Hc failure. pose proof (Parse_MonitorID_control id Hh Hc) as Hp.
  split; [|split].
  - unfold GetMonitor, http.NewRequest. rewrite Hp. reflexivity.
  - unfold DeleteMonitor, http.NewRequest. rewrite Hp. reflexivity.
  - intros monitor body Hm. unfold UpdateMonitor, http.NewRequest.
    rewrite Hm, Hp. reflexivity.
Qed.

(** X10.  Delete returns no failure exactly when its target parses, the
    transport answers its request and the status of the answer is 204. *)
Theorem DeleteMonitor_succeeds_iff
        (c : BetterstackClient) (id : string) (w w' : World) :
  DeleteMonitor c id w = (None, w')
  <-> exists resp, deleted c id w resp w' /\ http.StatusCode resp = 204.
Proof.
  split.
  - unfold DeleteMonitor, http.NewRequest.
    destruct (url.Parse (MonitorID id)) as [u|e] eqn:Hp; [|discriminate].
    change (http.set_Header _ _) with (delete_request c id).
    unfold bind. destruct (Do (delete_request c id) w) as [[resp|e] w1] eqn:Hdo;
      [|discriminate].
    cbv zeta. destruct (http.StatusCode resp =? http.StatusNoContent) eqn:Es;
      cbn [negb]; [|discriminate].
    intros H. injection H as <-. exists resp. split.
    + exists u. split; [exact Hp|exact Hdo].
    + apply Z.eqb_eq in Es. exact Es.
  - intros (resp & Hx & Hs).
    rewrite (DeleteMonitor_deleted _ _ _ _ _ Hx), Hs. reflexivity.
Qed.

(** X11.  A monitor that cannot be serialized makes create and update
    return the error of the serializer as it is, with nothing sent, for
    update whatever the identifier; a monitor that can makes create send
    exactly one request, a POST to the collection with the headers of the
    client and the serialized monitor as body. *)
Theorem serialized_monitor_is_sent
        (c : BetterstackClient) (monitor : Monitor.t) (w : World) :
  (forall e,
      Marshal monitor = Err e ->
      CreateMonitor c monitor w = ((ResponseWrapper.zero Monitor.zero, Some e), w)
      /\ forall id,
          UpdateMonitor c id monitor w
          = ((ResponseWrapper.zero Monitor.zero, Some e), w))
  /\ (forall body,
         Marshal monitor = Ok body ->
         sent (snd (CreateMonitor c monitor w))
         = (sent w ++ [create_request c body])%list).
Proof.
  split.
  - intros e Hm. split; [|intros id].
    + unfold CreateMonitor. rewrite Hm. reflexivity.
    + unfold UpdateMonitor. rewrite Hm. reflexivity.
  - intros body Hm. unfold CreateMonitor, http.NewRequest.
    rewrite Hm, Parse_Monitors.
    change (http.set_Header _ _) with (create_request c body).
    unfold bind, Do. destruct (RoundTrip _ _) as [[resp|e] rem']; [|reflexivity].
    cbv zeta. destruct (negb _); reflexivity.
Qed.

(** X12.  Every failure of a list call is built from one of four
    formats: the invalid filter, the failed execution, the failed
    decoding, the reported errors.  The failure of the request creation is
    not among them: the target of a list call always parses.  The same
    holds for create once the monitor is serialized, with three formats. *)
Theorem request_is_always_built (c : BetterstackClient) (w : World) :
  (forall page ft fv e,
      snd (fst (ListMonitors c page ft fv w)) = Some e ->
      exists format args, e = fmt_Errorf format args /\ In format list_failure_formats)
  /\ (forall monitor body e,
         Marshal monitor = Ok body ->
         snd (fst (CreateMonitor c monitor w)) = Some e ->
         exists format args,
           e = fmt_Errorf format args /\ In format create_failure_formats)
  /\ ~ In request_creation_format list_failure_formats
  /\ ~ In request_creation_format create_failure_formats.
Proof.
  split; [|split; [|split]].
  - intros page ft fv e. unfold ListMonitors.
    destruct (list_params_cases page ft fv) as [(_ & _ & ->)|(_ & params & Hp & _)].
    + cbn. intros H. injection H as <-. do 2 eexists. split; [reflexivity|].
      cbn. auto.
    + rewrite Hp. rewrite (proj1 (list_send_exchange c page ft fv params w Hp)).
      cbn [fst snd]. unfold list_receive.
      destruct (fst (RoundTrip _ _)) as [resp|e0].
      * destruct (Decode_list _) as [r [e0|]].
        -- cbn. intros H. injection H as <-. do 2 eexists. split; [reflexivity|].
           cbn. auto.
        -- destruct (funk.NotEmpty _); cbn; [|discriminate].
           intros H. injection H as <-. do 2 eexists. split; [reflexivity|].
           cbn. auto.
      * cbn. intros H. injection H as <-. do 2 eexists. split; [reflexivity|].
        cbn. auto.
  - intros monitor body e Hm. unfold CreateMonitor, http.NewRequest.
    rewrite Hm, Parse_Monitors. unfold bind.
    destruct (Do _ w) as [[resp|e0] w1]; cbv zeta.
    + destruct (negb _).
      * cbn. intros H. injection H as <-. do 2 eexists. split; [reflexivity|].
        cbn. auto.
      * unfold ret, decode_one. cbn [fst].
        destruct (Decode_one _) as [r [e0|]].
        -- cbn. intros H. injection H as <-. do 2 eexists. split; [reflexivity|].
           cbn. auto.
        -- destruct (funk.NotEmpty _); cbn; [|discriminate].
           intros H. injection H as <-. do 2 eexists. split; [reflexivity|].
           cbn. auto.
    + cbn. intros H. injection H as <-. do 2 eexists. split; [reflexivity|].
      cbn. auto.
  - cbn. intros [H|[H|[H|[H|[]]]]]; discriminate.
  - cbn. intros [H|[H|[H|[]]]]; discriminate.
Qed.

(** X13.  Find asks for page 1 only.  With a recognized kind and a value
    it sends one request, whose query has page 1 and the filter; it never
    sends more than one request, whatever the pagination links of the
    answer; and when it fails its result is empty, also when the list call
    under it returned a decoded envelope with its failure. *)
Theorem FindMonitor_one_page
        (c : BetterstackClient) (kind val : string) (w : World) :
  (recognized kind = true -> val <> "" ->
   exists req,
     sent (snd (FindMonitor c kind val w)) = (sent w ++ [req])%list
     /\ url.lookup (query_of req) "page" = ["1"]
     /\ url.lookup (query_of req) kind = [val])
  /\ (List.length (sent (snd (FindMonitor c kind val w)))
      <= List.length (sent w) + 1)%nat
  /\ (forall ms e w',
         FindMonitor c kind val w = ((ms, Some e), w') -> ms = []).
Proof.
  assert (Hs : sent (snd (FindMonitor c kind val w))
               = sent (snd (ListMonitors c 1 kind val w))).
  { unfold FindMonitor, bind.
    destruct (ListMonitors c 1 kind val w) as [[r [e|]] w1]; reflexivity. }
  split; [|split].
  - intros Hrec Hval.
    assert (Hk : kind <> "").
    { intros ->. discriminate. }
    assert (Hne : funk.NotEmpty_string kind && funk.NotEmpty_string val = true).
    { apply andb_true_iff. split; apply NotEmpty_string_true; assumption. }
    destruct (ListMonitors_sends c 1 kind val w (fun _ => Hrec))
      as (params & _ & Hsent & Hq).
    exists (list_request c params). rewrite Hs. split; [exact Hsent|].
    rewrite Hq.
    pose proof (list_pairs_query 1 kind val (fun _ => Hrec)) as (_ & H2 & H3).
    rewrite Hne in H3. split; [exact H2|apply H3].
  - rewrite Hs. unfold ListMonitors.
    destruct (list_params_cases 1 kind val) as [(_ & _ & ->)|(_ & params & Hp & _)].
    + cbn. lia.
    + rewrite Hp. rewrite (proj1 (list_send_exchange c 1 kind val params w Hp)).
      cbn [snd sent]. rewrite length_app. cbn. lia.
  - intros ms e w'. unfold FindMonitor, bind.
    destruct (ListMonitors c 1 kind val w) as [[r [e0|]] w1]; [|discriminate].
    intros H. injection H as <- _ _. reflexivity.
Qed.

(** X14.  The text of the target of a filtered list call: the address of
    the collection, then the page, the page size and the filter in this
    order (the order of the keys, not that of their addition), the filter
    value escaped as a query component; the request is a GET with the
    headers of the client and no body. *)
Theorem ListMonitors_target
        (c : BetterstackClient) (page : Z) (ft fv : string) (w : World) :
  recognized ft = true -> fv <> "" ->
  sent (snd (ListMonitors c page ft fv w))
  = (sent w
     ++ [http.mkRequest http.MethodGet
           (Monitors ++ "?page=" ++ fmt.Sprintf_d (Z.max 1 page) ++ "&per_page=250&"
                     ++ ft ++ "=" ++ url.QueryEscape fv)
           (headers c) None])%list.
Proof.
  intros Hrec Hfv.
  destruct (ListMonitors_sends c page ft fv w (fun _ => Hrec))
    as (params & Hp & Hsent & _).
  rewrite Hsent. unfold list_request.
  destruct (list_params_cases page ft fv) as [(_ & _ & E)|(_ & params' & E & Henc & _)];
    [congruence|].
  rewrite Hp in E. injection E as <-. rewrite Henc. do 3 f_equal.
  assert (Hne : funk.NotEmpty_string ft && funk.NotEmpty_string fv = true).
  { apply andb_true_iff. split; apply NotEmpty_string_true; [|exact Hfv].
    intros ->. discriminate. }
  unfold list_pairs, page_text. rewrite Hne. cbn [app join_pairs].
  unfold pair_text. cbn [fst snd].
  rewrite (QueryEscape_plain _ (Sprintf_d_plain (Z.max 1 page))).
  change (url.QueryEscape "250") with "250".
  rewrite !append_assoc3. reflexivity.
Qed.

End FurtherOperations.

(** ** The further properties on the fake transport *)

(** X1 on page 42. *)
Lemma GetLastPage_page_request_witness :
  GetLastPage
    (Pagination.mk "" "https://uptime.betterstack.com/api/v2/monitors?page=42&per_page=250"
                   "" "")
  = (42, None).
Proof.
  refine (GetLastPage_page_request client 42 _).
  unfold MinInt64, MaxInt64. lia.
Defined.

(** X2 on a "last" link that names page 0. *)
Lemma ListAllMonitors_single_page_witness :
  @ListAllMonitors (transport last_is_zero) 0 client (start last_is_zero)
  = Some ((map with_id [monitor "a"; monitor "b"], None),
          @mkWorld (transport last_is_zero) tt [page_request client 1]).
Proof.
  refine (@ListAllMonitors_single_page (transport last_is_zero) client
            (start last_is_zero)
            (@mkWorld (transport last_is_zero) tt [page_request client 1])
            page_zero 0 0%nat eq_refl eq_refl _).
  lia.
Defined.

(** X3 on three pages. *)
Lemma ListAllMonitors_all_pages_witness :
  @ListAllMonitors (transport three_pages) 2 client (start three_pages)
  = Some ((map with_id [monitor "a"; monitor "b"; monitor "c";
                        monitor "d"; monitor "e"; monitor "f"], None),
          @mkWorld (transport three_pages) tt (map (page_request client) [1; 2; 3]))
  /\ map (page_request client) [1; 2; 3]
     = map (page_request client) (pages_from 1 3).
Proof.
  refine (@ListAllMonitors_all_pages (transport three_pages) client
            (start three_pages)
            (@mkWorld (transport three_pages) tt (map (page_request client) [1; 2; 3]))
            page1 [page2; page3] 3 2%nat _ eq_refl eq_refl _ _).
  - exists (@mkWorld (transport three_pages) tt [page_request client 1]).
    split; [reflexivity|].
    exists (@mkWorld (transport three_pages) tt (map (page_request client) [1; 2])).
    split; [reflexivity|].
    exists (@mkWorld (transport three_pages) tt (map (page_request client) [1; 2; 3])).
    split; reflexivity.
  - unfold MaxInt64. lia.
  - cbn. lia.
Defined.

(** X4 on a transport that always answers, with a "last" link that names
    the largest page. *)
Lemma ListAllMonitors_never_returns_witness :
  @ListAllMonitors (transport endless) 1000 client (start endless) = None.
Proof.
  refine (@ListAllMonitors_never_returns (transport endless) client
            (start endless) 1000 _ _).
  - intros j w0. rewrite ListMonitors_page_any. reflexivity.
  - reflexivity.
Defined.

(** X5 on three pages: two units of fuel give a result. *)
Lemma ListAllMonitors_terminates_witness :
  exists res, @ListAllMonitors (transport three_pages) 2 client (start three_pages)
              = Some res.
Proof.
  refine (@ListAllMonitors_terminates (transport three_pages) client
            (start three_pages) 2 _).
  intros r1 w1 n H1 Hl.
  assert (E : @ListMonitors (transport three_pages) client 1 Blanc Blanc
                            (start three_pages)
              = ((page1, None),
                 @mkWorld (transport three_pages) tt [page_request client 1]))
    by reflexivity.
  rewrite E in H1. injection H1 as <- <-.
  assert (E3 : GetLastPage (ListWrapper.Pagination page1) = (3, None)) by reflexivity.
  rewrite E3 in Hl. injection Hl as <-.
  split; [reflexivity|cbn; lia].
Defined.

(** X6 on a collection whose second page is out of reach. *)
Lemma ListAllMonitors_requests_witness :
  exists pages,
    [page_request client 1; page_request client 2]
    = map (page_request client) (1 :: pages)
    /\ Forall (fun p => 1 <= p) pages.
Proof.
  exact (@ListAllMonitors_requests (transport page2_down) client (start page2_down)
           (@mkWorld (transport page2_down) tt
                     [page_request client 1; page_request client 2])
           1 (map with_id [monitor "a"; monitor "b"], Some refused_failure) eq_refl).
Defined.

(** X7 on a "last" link whose page is no number. *)
Lemma ListAllMonitors_pagination_failure_witness :
  @ListAllMonitors (transport last_is_text) 5 client (start last_is_text)
  = Some (([], Some not_a_number),
          @mkWorld (transport last_is_text) tt [page_request client 1]).
Proof.
  exact (@ListAllMonitors_pagination_failure (transport last_is_text) client
           (start last_is_text)
           (@mkWorld (transport last_is_text) tt [page_request client 1])
           page_text_last 0 not_a_number 5 eq_refl eq_refl).
Defined.

(** X8 on the identifier 7. *)
Lemma single_resource_request_is_sent_witness :
  sent (snd (@GetMonitor (transport (reports any_nil)) client "7"
                         (start (reports any_nil))))
  = [http.mkRequest "GET" "https://uptime.betterstack.com/api/v2/monitors/7"
                    (headers client) None]
  /\ sent (snd (@DeleteMonitor (transport (reports any_nil)) client "7"
                               (start (reports any_nil))))
     = [http.mkRequest "DELETE" "https://uptime.betterstack.com/api/v2/monitors/7"
                       (headers client) None].
Proof.
  destruct (@single_resource_request_is_sent (transport (reports any_nil)) client "7"
              (start (reports any_nil)) eq_refl) as (_ & Hg & Hd & _).
  split; [exact Hg|exact Hd].
Defined.

(** X9 on an identifier that ends in a line feed. *)
Lemma control_byte_in_identifier_witness :
  @GetMonitor (transport three_pages) client broken_id (start three_pages)
  = ((ResponseWrapper.zero Monitor.zero,
      Some (fmt_Errorf "failed to create request: %v"
              [arg_error (Some (control_byte_failure (MonitorID broken_id)))])),
     start three_pages).
Proof.
  exact (proj1 (@control_byte_in_identifier (transport three_pages) client broken_id
                  (start three_pages) eq_refl eq_refl)).
Defined.

(** X10 on a transport that answers 204. *)
Lemma DeleteMonitor_succeeds_iff_witness :
  @DeleteMonitor (transport (status 204 "204 No Content")) client "7"
                 (start (status 204 "204 No Content"))
  = (None, @mkWorld (transport (status 204 "204 No Content")) tt
                    [delete_request client "7"]).
Proof.
  apply (proj2 (@DeleteMonitor_succeeds_iff (transport (status 204 "204 No Content"))
                  client "7" (start (status 204 "204 No Content"))
                  (@mkWorld (transport (status 204 "204 No Content")) tt
                            [delete_request client "7"]))).
  exists (answer 204 "204 No Content"). split; [|reflexivity].
  exists (single_url "7"). split; reflexivity.
Defined.

(** X11 under a serializer that refuses, and under one that accepts. *)
Lemma serialized_monitor_is_sent_witness :
  @CreateMonitor (unserializable three_pages) client Monitor.zero
                 (@mkWorld (unserializable three_pages) tt [])
  = ((ResponseWrapper.zero Monitor.zero, Some unsupported),
     @mkWorld (unserializable three_pages) tt [])
  /\ sent (snd (@CreateMonitor (transport (reports any_nil)) client Monitor.zero
                               (start (reports any_nil))))
     = [create_request client "{}"].
Proof.
  split.
  - exact (proj1 (proj1 (@serialized_monitor_is_sent (unserializable three_pages)
                           client Monitor.zero
                           (@mkWorld (unserializable three_pages) tt []))
                        unsupported eq_refl)).
  - exact (proj2 (@serialized_monitor_is_sent (transport (reports any_nil)) client
                    Monitor.zero (start (reports any_nil))) "{}" eq_refl).
Defined.

(** X12 on a list call whose answer reports errors, and on a create call
    answered 200. *)
Lemma request_is_always_built_witness :
  (exists format args,
      fmt_Errorf "failed to list monitors: %v" [arg_any (any_string "Unauthorized")]
      = fmt_Errorf format args
      /\ In format list_failure_formats)
  /\ (exists format args,
         no_cause = fmt_Errorf format args /\ In format create_failure_formats).
Proof.
  split.
  - exact (proj1 (@request_is_always_built
                    (transport (reports (any_string "Unauthorized"))) client
                    (start (reports (any_string "Unauthorized"))))
                 1 "" ""
                 (fmt_Errorf "failed to list monitors: %v"
                             [arg_any (any_string "Unauthorized")])
                 eq_refl).
  - exact (proj1 (proj2 (@request_is_always_built
                           (transport (status 200 "200 OK")) client
                           (start (status 200 "200 OK"))))
                 Monitor.zero "{}" no_cause eq_refl eq_refl).
Defined.

(** X13 on a filter by [url]. *)
Lemma FindMonitor_one_page_witness :
  (exists req,
      sent (snd (@FindMonitor (transport three_pages) client "url" "example.com"
                              (start three_pages)))
      = [req]
      /\ url.lookup (query_of req) "page" = ["1"]
      /\ url.lookup (query_of req) "url" = ["example.com"])
  /\ fst (fst (@FindMonitor (transport three_pages) client "url" "example.com"
                            (start three_pages)))
     = [].
Proof.
  destruct (@FindMonitor_one_page (transport three_pages) client "url" "example.com"
              (start three_pages)) as (H1 & _ & H3).
  split.
  - refine (H1 eq_refl _). discriminate.
  - exact (H3 (fst (fst (@FindMonitor (transport three_pages) client "url"
                                      "example.com" (start three_pages))))
              refused_failure
              (@mkWorld (transport three_pages) tt
                 [list_request client
                    [("per_page", ["250"]); ("page", ["1"]); ("url", ["example.com"])]])
              eq_refl).
Defined.

(** X14 on a filter value with a space and an ampersand. *)
Lemma ListMonitors_target_witness :
  sent (snd (@ListMonitors (transport three_pages) client 0 "url" "a b&c"
                           (start three_pages)))
  = [http.mkRequest "GET"
       "https://uptime.betterstack.com/api/v2/monitors?page=1&per_page=250&url=a+b%26c"
       (headers client) None].
Proof.
  refine (@ListMonitors_target (transport three_pages) client 0 "url" "a b&c"
            (start three_pages) eq_refl _).
  discriminate.
Defined.
